(** * Scoring engine of the D&I evaluator (src/v6.py)

    Shallow embedding of the four scoring functions of [v6.py]
    ([attribuer_note], [note_vers_chiffre], [chiffre_vers_note],
    [calculer_equilibre_age]), of the threshold table [seuils] and of the
    two top-level blocks that grade the six indicators and aggregate them,
    followed by the properties the specification states about them.

    Data is kept as the script has it.  A Python [float] is an IEEE 754
    binary64 number and is embedded as Rocq's primitive [float], so every
    arithmetic operation and comparison below rounds and treats NaN as
    CPython does; a Python [int] is a [Z]; a [str] is a [string]; a [dict]
    with string keys is a [gmap string _]; a raised exception is the
    [Raise] branch of a result type.  The indicator values are floats on
    every path of the script ([st.number_input] with float bounds, or
    [float(...)] of an imported cell). *)

From Stdlib Require Import ZArith Floats Lia.
From stdpp Require Import gmap strings list.

Set Warnings "-inexact-float".

(** * Part I: definitions *)

(** ** The fragment of the Python runtime that the script relies on *)

Module Py.

(** Exception classes the modelled code can raise. *)
Inductive exn : Type :=
| ZeroDivisionError
| IndexError
| KeyError (key : string)
| ValueError (msg : string)
| OverflowError.

(** [type(e).__name__] *)
Definition exn_name (e : exn) : string :=
  match e with
  | ZeroDivisionError => "ZeroDivisionError"
  | IndexError => "IndexError"
  | KeyError _ => "KeyError"
  | ValueError _ => "ValueError"
  | OverflowError => "OverflowError"
  end.

Inductive result (A : Type) : Type :=
| Ok (a : A)
| Raise (e : exn).
Arguments Ok {A} a.
Arguments Raise {A} e.

#[export] Instance result_ret : MRet result := fun A a => Ok a.
#[export] Instance result_bind : MBind result := fun A B k r =>
  match r with
  | Ok a => k a
  | Raise e => Raise e
  end.

(** [l[i]] for a non-negative literal index. *)
Definition list_getitem {A} (l : list A) (i : nat) : result A :=
  match l !! i with
  | Some x => Ok x
  | None => Raise IndexError
  end.

(** [d[k]] *)
Definition dict_getitem {A} (d : gmap string A) (k : string) : result A :=
  match d !! k with
  | Some x => Ok x
  | None => Raise (KeyError k)
  end.

(** [d.get(k, dflt)] *)
Definition dict_get {A} (d : gmap string A) (k : string) (dflt : A) : A :=
  default dflt (d !! k).

(** [k in d] *)
Definition dict_contains {A} (d : gmap string A) (k : string) : bool :=
  bool_decide (is_Some (d !! k)).

(** [d.values()]; the script only sums or counts them, so the iteration
    order is immaterial. *)
Definition dict_values {A} (d : gmap string A) : list A :=
  (map_to_list d).*2.

(** [len(d)] *)
Definition dict_len {A} (d : gmap string A) : Z := Z.of_nat (size d).

(** The truth value of a dict in a condition: non-empty. *)
Definition dict_bool {A} (d : gmap string A) : bool :=
  negb (dict_len d =? 0)%Z.

(** [sum(xs)] over ints: starts at 0 and adds from the left. *)
Definition py_sum (xs : list Z) : Z := foldl Z.add 0%Z xs.

(** [x >= y], [x <= y], [x > y], [x < y] and [x == y] on floats: all are
    false as soon as one side is NaN. *)
Definition float_ge (x y : float) : bool := PrimFloat.leb y x.
Definition float_le (x y : float) : bool := PrimFloat.leb x y.
Definition float_gt (x y : float) : bool := PrimFloat.ltb y x.
Definition float_lt (x y : float) : bool := PrimFloat.ltb x y.
Definition float_eq (x y : float) : bool := PrimFloat.eqb x y.

(** [float(n)] for an int [n]: the nearest binary64, ties to even.  The
    sums and counts of the script are small; for an [n] whose nearest
    binary64 would be infinite CPython raises instead (see [py_float]). *)
Definition float_of_int (n : Z) : float :=
  SF2Prim (binary_normalize prec emax n 0 false).

(** [a / b] on ints (true division).  CPython returns the binary64
    nearest to the exact quotient; when both operands are below 2^53 in
    magnitude, which holds for every sum and count the script can form,
    that is the IEEE quotient of the two exactly converted operands. *)
Definition int_truediv (a b : Z) : result float :=
  if (b =? 0)%Z then Raise ZeroDivisionError
  else Ok (float_of_int a / float_of_int b)%float.

End Py.
Import Py.

(** ** The scoring functions *)

(** [attribuer_note(valeur, seuils, ordre_croissant=True)], v6.py 39-73.
    Each [seuils[i]] is read only when the chain reaches it. *)
Definition attribuer_note (valeur : float) (seuils : list float)
    (ordre_croissant : bool) : result string :=
  if ordre_croissant then
    s0 ← list_getitem seuils 0;
    if float_ge valeur s0 then Ok "A" else
    s1 ← list_getitem seuils 1;
    if float_ge valeur s1 then Ok "B" else
    s2 ← list_getitem seuils 2;
    if float_ge valeur s2 then Ok "C" else
    s3 ← list_getitem seuils 3;
    if float_ge valeur s3 then Ok "D" else
    Ok "E"
  else
    s0 ← list_getitem seuils 0;
    if float_le valeur s0 then Ok "A" else
    s1 ← list_getitem seuils 1;
    if float_le valeur s1 then Ok "B" else
    s2 ← list_getitem seuils 2;
    if float_le valeur s2 then Ok "C" else
    s3 ← list_getitem seuils 3;
    if float_le valeur s3 then Ok "D" else
    Ok "E".

(** The dict literal of [note_vers_chiffre], v6.py 86. *)
Definition conversion : gmap string Z :=
  <["A" := 5%Z]> (<["B" := 4%Z]> (<["C" := 3%Z]> (<["D" := 2%Z]>
  (<["E" := 1%Z]> ∅)))).

(** [note_vers_chiffre(note)], v6.py 76-87. *)
Definition note_vers_chiffre (note : string) : Z :=
  dict_get conversion note 0%Z.

(** [chiffre_vers_note(score)], v6.py 90-109. *)
Definition chiffre_vers_note (score : float) : string :=
  if float_ge score 4.5 then "A"
  else if float_ge score 3.5 then "B"
  else if float_ge score 2.5 then "C"
  else if float_ge score 1.5 then "D"
  else "E".

(** [calculer_equilibre_age(moins_30, entre_30_50, plus_50)],
    v6.py 112-136. *)
Definition calculer_equilibre_age (moins_30 entre_30_50 plus_50 : float)
    : float :=
  let distribution_ideale := 33.33%float in
  let ecart_moins_30 := abs (moins_30 - distribution_ideale) in
  let ecart_entre_30_50 := abs (entre_30_50 - distribution_ideale) in
  let ecart_plus_50 := abs (plus_50 - distribution_ideale) in
  let ecart_moyen :=
    ((ecart_moins_30 + ecart_entre_30_50 + ecart_plus_50) / 3)%float in
  let score := (1 - ecart_moyen / 66.67)%float in
  (score * 100)%float.

(** The threshold table [seuils], v6.py 139-146.  The int literals are
    written as the binary64 values they denote exactly; Python compares an
    int with a float by value, so the comparisons agree. *)
Definition seuils : gmap string (list float) :=
  <["taux_feminisation" := [40; 35; 30; 25]%float]> (
  <["taux_femmes_cadres" := [35; 30; 25; 20]%float]> (
  <["taux_handicap" := [6; 5; 4; 3]%float]> (
  <["ecart_salaire" := [2; 4; 8; 12]%float]> (
  <["equilibre_age" := [85; 75; 65; 55]%float]> (
  <["taux_absenteisme" := [2.5; 3.5; 4.5; 5.5]%float]> ∅))))).

(** ** The evaluation blocks *)

(** The dict literal [resultats], v6.py 376-383 and 1275-1282: each entry
    reads the indicator, then its threshold list, then grades.  The keys
    are the display names of the six indicators. *)
Definition calcul_resultats (indicateurs : gmap string float)
    : result (gmap string string) :=
  v1 ← dict_getitem indicateurs "taux_feminisation";
  s1 ← dict_getitem seuils "taux_feminisation";
  n1 ← attribuer_note v1 s1 true;
  v2 ← dict_getitem indicateurs "taux_femmes_cadres";
  s2 ← dict_getitem seuils "taux_femmes_cadres";
  n2 ← attribuer_note v2 s2 true;
  v3 ← dict_getitem indicateurs "taux_handicap";
  s3 ← dict_getitem seuils "taux_handicap";
  n3 ← attribuer_note v3 s3 true;
  v4 ← dict_getitem indicateurs "ecart_salaire";
  s4 ← dict_getitem seuils "ecart_salaire";
  n4 ← attribuer_note v4 s4 false;
  v5 ← dict_getitem indicateurs "equilibre_age";
  s5 ← dict_getitem seuils "equilibre_age";
  n5 ← attribuer_note v5 s5 true;
  v6 ← dict_getitem indicateurs "taux_absenteisme";
  s6 ← dict_getitem seuils "taux_absenteisme";
  n6 ← attribuer_note v6 s6 false;
  Ok (<["Taux de féminisation global" := n1]> (
      <["Taux de femmes cadres" := n2]> (
      <["Taux d'emploi handicap" := n3]> (
      <["Écart de salaire H/F" := n4]> (
      <["Équilibre des âges" := n5]> (
      <["Taux d'absentéisme" := n6]> ∅)))))).

(** [{cle: note_vers_chiffre(note) for cle, note in resultats.items()}],
    v6.py 386 and 1298. *)
Definition notes_numeriques (resultats : gmap string string)
    : gmap string Z :=
  note_vers_chiffre <$> resultats.

(** [sum(notes_numeriques.values()) / len(notes_numeriques)],
    v6.py 389 and 1299. *)
Definition score_global (resultats : gmap string string) : result float :=
  let nn := notes_numeriques resultats in
  int_truediv (py_sum (dict_values nn)) (dict_len nn).

(** What a scoring run leaves in the script's variables [resultats],
    [score_global] and [note_globale]. *)
Record evaluation : Type := Evaluation {
  ev_resultats : gmap string string;
  ev_score_global : float;
  ev_note_globale : string
}.

(** The statements under the "Évaluer" button, v6.py 376-390: no check of
    the input dict precedes the grading. *)
Definition evaluer_corps (indicateurs : gmap string float)
    : result evaluation :=
  resultats ← calcul_resultats indicateurs;
  score ← score_global resultats;
  Ok (Evaluation resultats score (chiffre_vers_note score)).

(** [if st.button("Évaluer", ...) and indicateurs:], v6.py 372, with the
    button pressed; [None] when the block is not entered. *)
Definition evaluer (indicateurs : gmap string float)
    : option (result evaluation) :=
  if dict_bool indicateurs then Some (evaluer_corps indicateurs) else None.

(** v6.py 1263-1266 *)
Definition indicateurs_requis : list string :=
  ["taux_feminisation"; "taux_femmes_cadres"; "taux_handicap";
   "ecart_salaire"; "equilibre_age"; "taux_absenteisme"].

(** The loop of v6.py 1268-1272.  The values of [indicateurs] are floats,
    so the [isinstance] test of line 1271 always passes and only the
    membership test can raise. *)
Fixpoint verifier_indicateurs (requis : list string)
    (indicateurs : gmap string float) : result unit :=
  match requis with
  | [] => Ok tt
  | ind :: suite =>
      if dict_contains indicateurs ind
      then verifier_indicateurs suite indicateurs
      else Raise (ValueError ("L'indicateur " +:+ ind +:+ " est manquant"))
  end.

(** The body of the [try] of the report section, v6.py 1261-1300, up to
    the global grade; the [except] clauses display the exception. *)
Definition rapport_corps (indicateurs : gmap string float)
    : result evaluation :=
  _ ← verifier_indicateurs indicateurs_requis indicateurs;
  resultats ← calcul_resultats indicateurs;
  score ← score_global resultats;
  Ok (Evaluation resultats score (chiffre_vers_note score)).

(** [if 'indicateurs' in locals() and indicateurs:], v6.py 1260; the name
    is always bound (line 242), so the dict being non-empty decides. *)
Definition rapport (indicateurs : gmap string float)
    : option (result evaluation) :=
  if dict_bool indicateurs then Some (rapport_corps indicateurs) else None.

(** The default values of the manual-entry form, v6.py 254-284. *)
Definition indicateurs_defaut : gmap string float :=
  <["taux_feminisation" := 30%float]> (
  <["taux_femmes_cadres" := 28%float]> (
  <["ecart_salaire" := 5%float]> (
  <["taux_handicap" := 5.5%float]> (
  <["equilibre_age" := calculer_equilibre_age 15 45 40]> (
  <["taux_absenteisme" := 4.2%float]> ∅))))).

(** ** The vocabulary of the specification *)

(** The five ordered grades; the script carries them as one-letter
    strings. *)
Inductive Grade : Type := A | B | C | D | E.

Definition lettre (g : Grade) : string :=
  match g with
  | A => "A" | B => "B" | C => "C" | D => "D" | E => "E"
  end.

(** The five-point table A=5, B=4, C=3, D=2, E=1. *)
Definition points (g : Grade) : Z :=
  match g with
  | A => 5 | B => 4 | C => 3 | D => 2 | E => 1
  end%Z.

(** Position in the total order A > B > C > D > E (E lowest). *)
Definition rang (g : Grade) : nat :=
  match g with
  | A => 4 | B => 3 | C => 2 | D => 1 | E => 0
  end.

(** [au_moins g1 g2]: [g2] is at least as good as [g1]. *)
Definition au_moins (g1 g2 : Grade) : Prop := rang g1 <= rang g2.

(** The first rung of a four-rung ladder that is passed decides the
    grade; [p0] .. [p3] are the outcomes of the four comparisons. *)
Definition echelon (p0 p1 p2 p3 : bool) (g : Grade) : Prop :=
  match g with
  | A => p0 = true
  | B => p0 = false /\ p1 = true
  | C => p0 = false /\ p1 = false /\ p2 = true
  | D => p0 = false /\ p1 = false /\ p2 = false /\ p3 = true
  | E => p0 = false /\ p1 = false /\ p2 = false /\ p3 = false
  end.

(** The same as a function of the four outcomes. *)
Definition grade_echelle (p0 p1 p2 p3 : bool) : Grade :=
  if p0 then A else if p1 then B else if p2 then C else if p3 then D else E.

(** The cut points of the aggregate ladder. *)
Definition echelle_globale : list float := [4.5; 3.5; 2.5; 1.5]%float.

(** The specification's wording of the balance score. *)
Definition deviation (value : float) : float := abs (value - 33.33).

Definition mean_deviation (under30 between30and50 over50 : float) : float :=
  ((deviation under30 + deviation between30and50 + deviation over50) / 3)
  %float.

Definition balance (under30 between30and50 over50 : float) : float :=
  ((1 - mean_deviation under30 between30and50 over50 / 66.67) * 100)%float.

(** The specification's aggregate: the mean of the five-point values of a
    collection of grades, as the binary64 quotient of their integer sum by
    their count. *)
Definition moyenne_points (gs : gmap string Grade) : float :=
  (float_of_int (py_sum (points <$> dict_values gs)) /
   float_of_int (dict_len gs))%float.

(** A score card: one grade for each of the six indicators, under the
    keys the script gives to [resultats]. *)
Definition carte (g1 g2 g3 g4 g5 g6 : Grade) : gmap string Grade :=
  <["Taux de féminisation global" := g1]> (
  <["Taux de femmes cadres" := g2]> (
  <["Taux d'emploi handicap" := g3]> (
  <["Écart de salaire H/F" := g4]> (
  <["Équilibre des âges" := g5]> (
  <["Taux d'absentéisme" := g6]> ∅))))).

(** Is the sixth of [z] a float within [1.0, 5.0]? *)
Definition sixieme_borne (z : Z) : bool :=
  match int_truediv z 6 with
  | Ok s => float_le 1 s && float_le s 5
  | Raise _ => false
  end.

(** The error names of the specification; the script defines neither. *)
Definition InvalidAggregateInputError : string :=
  "InvalidAggregateInputError".
Definition UnknownIndicatorError : string := "UnknownIndicatorError".

(** The default form values with one more entry, under a key that the
    table does not have. *)
Definition indicateurs_surnumeraire : gmap string float :=
  <["taux_turnover" := 12%float]> indicateurs_defaut.

(** Lexicographic comparison of (exponent, mantissa) pairs, the core of
    the IEEE comparison of two finite numbers of the same sign. *)
Definition lex (e1 : Z) (m1 : positive) (e2 : Z) (m2 : positive)
    : comparison :=
  match Z.compare e1 e2 with
  | Lt => Lt
  | Gt => Gt
  | Eq => Pos.compare_cont Eq m1 m2
  end.

(** ** Further vocabulary for the properties of Part III *)

(** The comparison [attribuer_note] applies to one threshold. *)
Definition franchit (valeur : float) (ordre_croissant : bool)
    (seuil : float) : bool :=
  if ordre_croissant then float_ge valeur seuil else float_le valeur seuil.

(** The total of the five-point values of a score card. *)
Definition total_points (g1 g2 g3 g4 g5 g6 : Grade) : Z :=
  (points g1 + points g2 + points g3 + points g4 + points g5 + points g6)%Z.

(** The global grade read off the total of six indicators. *)
Definition palier (total : Z) : Grade :=
  if (27 <=? total)%Z then A
  else if (21 <=? total)%Z then B
  else if (15 <=? total)%Z then C
  else if (9 <=? total)%Z then D
  else E.

(** Does the global grade of a total agree with [palier]? *)
Definition palier_conforme (total : Z) : bool :=
  match int_truediv total 6 with
  | Ok s => String.eqb (chiffre_vers_note s) (lettre (palier total))
  | Raise _ => false
  end.

(** Is the sixth of [z] at most the sixth of [z'], as floats? *)
Definition sixieme_croissant (z z' : Z) : bool :=
  match int_truediv z 6, int_truediv z' 6 with
  | Ok s, Ok s' => float_le s s'
  | _, _ => false
  end.

(** ** Spreadsheet cells and the conversions applied to them *)

From stdpp Require Import pretty.

(** A cell of a column of mixed content, as pandas hands it to the
    scripts: a [str], an [int] or a [float] (an empty cell is NaN). *)
Inductive cellule : Type :=
| CStr (s : string)
| CInt (n : Z)
| CFloat (f : float).

(** The behaviour of the builtins [float], [int] and [str] on the
    arguments whose treatment lies outside the scripts: parsing a string
    as a number, truncating a float to an int, printing a float. *)
Record builtins : Type := Builtins {
  float_of_str : string -> result float;
  int_of_str : string -> result Z;
  int_of_float : float -> result Z;
  str_of_float : float -> string
}.

(** [float(c)].  An int is rounded to the nearest binary64; when that
    would be infinite, that is from 2^1024 - 2^970 on in magnitude, CPython
    raises [OverflowError] ("int too large to convert to float"). *)
Definition py_float (py : builtins) (c : cellule) : result float :=
  match c with
  | CStr s => float_of_str py s
  | CInt n =>
      if float_eq (abs (float_of_int n)) infinity then Raise OverflowError
      else Ok (float_of_int n)
  | CFloat f => Ok f
  end.

(** [math.isfinite(x)]: neither NaN nor an infinity. *)
Definition est_fini (x : float) : bool := float_lt (abs x) infinity.

(** The same on the specification side: a zero or a finite number. *)
Definition fini (x : spec_float) : Prop :=
  match x with
  | S754_zero _ | S754_finite _ _ _ => True
  | _ => False
  end.

(** [int(c)] *)
Definition py_int (py : builtins) (c : cellule) : result Z :=
  match c with
  | CStr s => int_of_str py s
  | CInt n => Ok n
  | CFloat f => int_of_float py f
  end.

(** [str(c)] *)
Definition py_str (py : builtins) (c : cellule) : string :=
  match c with
  | CStr s => s
  | CInt n => pretty n
  | CFloat f => str_of_float py f
  end.

(** [x / y] on floats: Python raises where IEEE 754 would return an
    infinity or NaN. *)
Definition float_truediv (x y : float) : result float :=
  if float_eq y 0 then Raise ZeroDivisionError else Ok (x / y)%float.

(** ** The converter (src/converter.py) *)

(** What [convert_data] uses of its DataFrame: the column names and the
    cells of the column ['Valeur'], row by row. *)
Record dataframe : Type := DataFrame {
  df_columns : list string;
  df_valeur : list cellule
}.

(** [df.iloc[i]['Valeur']] *)
Definition iloc_valeur (df : dataframe) (i : nat) : result cellule :=
  list_getitem (df_valeur df) i.

(** converter.py 81 *)
Definition required_fields : list string := ["Information"; "Valeur"].

(** The body of the [try] of [convert_data(df)], converter.py 80-167;
    [annee_courante] is [datetime.now().year].  The value returned is the
    pair of columns of the output DataFrame, row by row. *)
Definition convert_data_corps (py : builtins) (annee_courante : Z)
    (df : dataframe) : result (list (string * cellule)) :=
  if negb (forallb (fun field => bool_decide (field ∈ df_columns df))
                   required_fields)
  then Raise (ValueError
    "Le fichier Excel doit contenir les colonnes 'Information' et 'Valeur'")
  else
  c0 ← iloc_valeur df 0;
  let nom_entreprise := py_str py c0 in
  if String.eqb nom_entreprise ""
  then Raise (ValueError "Le nom de l'entreprise est requis") else
  c1 ← iloc_valeur df 1;
  annee ← py_int py c1;
  if ((annee <? 2000) || (annee >? annee_courante))%Z
  then Raise (ValueError ("L'année doit être comprise entre 2000 et "
                          +:+ pretty annee_courante)) else
  c2 ← iloc_valeur df 2;
  effectif_total ← py_float py c2;
  if float_le effectif_total 0
  then Raise (ValueError "L'effectif total doit être supérieur à 0") else
  c3 ← iloc_valeur df 3;
  nb_femmes ← py_float py c3;
  if float_lt nb_femmes 0 || float_gt nb_femmes effectif_total
  then Raise (ValueError
    "Le nombre de femmes doit être compris entre 0 et l'effectif total")
  else
  c4 ← iloc_valeur df 4;
  nb_cadres ← py_float py c4;
  if float_lt nb_cadres 0 || float_gt nb_cadres effectif_total
  then Raise (ValueError
    "Le nombre de cadres doit être compris entre 0 et l'effectif total")
  else
  c5 ← iloc_valeur df 5;
  nb_femmes_cadres ← py_float py c5;
  if float_lt nb_femmes_cadres 0 || float_gt nb_femmes_cadres nb_cadres
  then Raise (ValueError
    "Le nombre de femmes cadres doit être compris entre 0 et le nombre total de cadres")
  else
  c6 ← iloc_valeur df 6;
  nb_handicap ← py_float py c6;
  if float_lt nb_handicap 0 || float_gt nb_handicap effectif_total
  then Raise (ValueError
    "Le nombre de salariés en situation de handicap doit être compris entre 0 et l'effectif total")
  else
  c7 ← iloc_valeur df 7;
  jours_travailles ← py_float py c7;
  if float_le jours_travailles 0
  then Raise (ValueError
    "Le nombre de jours travaillés doit être supérieur à 0")
  else
  c8 ← iloc_valeur df 8;
  jours_absence ← py_float py c8;
  if float_lt jours_absence 0
  then Raise (ValueError
    "Le nombre de jours d'absence ne peut pas être négatif")
  else
  c9 ← iloc_valeur df 9;
  moins_30 ← py_float py c9;
  c10 ← iloc_valeur df 10;
  entre_30_50 ← py_float py c10;
  c11 ← iloc_valeur df 11;
  plus_50 ← py_float py c11;
  let total_age := (moins_30 + entre_30_50 + plus_50)%float in
  if float_gt (abs (total_age - effectif_total)) 1
  then Raise (ValueError
    "La somme des effectifs par âge doit correspondre à l'effectif total")
  else
  q1 ← float_truediv nb_femmes effectif_total;
  let taux_feminisation := (q1 * 100)%float in
  taux_femmes_cadres ←
    (if float_gt nb_cadres 0
     then q ← float_truediv nb_femmes_cadres nb_cadres;
          Ok (CFloat (q * 100))
     else Ok (CInt 0));
  q3 ← float_truediv nb_handicap effectif_total;
  let taux_handicap := (q3 * 100)%float in
  q4 ← float_truediv moins_30 effectif_total;
  let moins_30_pct := (q4 * 100)%float in
  q5 ← float_truediv entre_30_50 effectif_total;
  let entre_30_50_pct := (q5 * 100)%float in
  q6 ← float_truediv plus_50 effectif_total;
  let plus_50_pct := (q6 * 100)%float in
  c12 ← iloc_valeur df 12;
  salaire_hommes ← py_float py c12;
  c13 ← iloc_valeur df 13;
  salaire_femmes ← py_float py c13;
  if float_le salaire_hommes 0 || float_le salaire_femmes 0
  then Raise (ValueError "Les salaires moyens doivent être supérieurs à 0")
  else
  q7 ← float_truediv (salaire_hommes - salaire_femmes) salaire_hommes;
  let ecart_salaire := (q7 * 100)%float in
  q8 ← float_truediv jours_absence jours_travailles;
  let taux_absenteisme := (q8 * 100)%float in
  Ok [("nom_entreprise", CStr nom_entreprise);
      ("annee", CInt annee);
      ("taux_feminisation", CFloat taux_feminisation);
      ("taux_femmes_cadres", taux_femmes_cadres);
      ("taux_handicap", CFloat taux_handicap);
      ("ecart_salaire", CFloat ecart_salaire);
      ("moins_30_ans", CFloat moins_30_pct);
      ("entre_30_50_ans", CFloat entre_30_50_pct);
      ("plus_50_ans", CFloat plus_50_pct);
      ("taux_absenteisme", CFloat taux_absenteisme)].

(** [convert_data(df)]: both [except] clauses display the error and
    return [None]. *)
Definition convert_data (py : builtins) (annee_courante : Z)
    (df : dataframe) : option (list (string * cellule)) :=
  match convert_data_corps py annee_courante df with
  | Ok sortie => Some sortie
  | Raise _ => None
  end.

(** The rows of the CSV template of the evaluator, v6.py 291-296. *)
Definition template_indicateurs : list string :=
  ["nom_entreprise"; "annee"; "taux_feminisation"; "taux_femmes_cadres";
   "ecart_salaire"; "taux_handicap"; "moins_30_ans"; "entre_30_50_ans";
   "plus_50_ans"; "taux_absenteisme"].

(** Conversions that know no text: every parse of a string fails and no
    float is an integer.  Enough for sheets whose cells are numbers. *)
Definition builtins_sans_texte : builtins :=
  Builtins (fun _ => Raise (ValueError "could not convert string to float"))
           (fun _ => Raise (ValueError "invalid literal for int()"))
           (fun _ => Raise (ValueError "cannot convert float to integer"))
           (fun _ => "nan").

(** A filled-in sheet: 200 employees, 80 women, 50 managers of whom 20
    women, 10 disabled employees, 44000 days worked, 1800 days of absence,
    40 + 100 + 60 by age, mean salaries 3200 and 3000. *)
Definition bilan_exemple : dataframe :=
  DataFrame ["Information"; "Valeur"; "Unité"]
    [CStr "EDF SA"; CInt 2022; CInt 200; CInt 80; CInt 50; CInt 20; CInt 10;
     CInt 44000; CInt 1800; CInt 40; CInt 100; CInt 60; CInt 3200;
     CInt 3000].

(** A sheet whose twelve figures are empty cells. *)
Definition bilan_vide (c0 c1 : cellule) : dataframe :=
  DataFrame ["Information"; "Valeur"; "Unité"]
    (c0 :: c1 :: replicate 12 (CFloat nan)).

(** A sheet whose age brackets hold -50, 150 and 100 employees out of
    200. *)
Definition bilan_age_negatif : dataframe :=
  DataFrame ["Information"; "Valeur"; "Unité"]
    [CStr "EDF SA"; CInt 2022; CInt 200; CInt 80; CInt 50; CInt 20; CInt 10;
     CInt 44000; CInt 1800; CInt (-50); CInt 150; CInt 100; CInt 3200;
     CInt 3000].

(** The figure of row [i] of a sheet is [x]. *)
Definition figure (py : builtins) (df : dataframe) (i : nat) (x : float)
    : Prop :=
  exists c, df_valeur df !! i = Some c /\ py_float py c = Ok x.

(** ** The import of an uploaded file (v6.py 333-356) *)

(** A statement that may raise inside the [try] of the import: on an
    exception the dict [indicateurs] stays as the statements before it
    left it. *)
Definition ou_arret {X Y} (indicateurs : gmap string float) (r : result X)
    (suite : X -> gmap string float * result Y)
    : gmap string float * result Y :=
  match r with
  | Ok x => suite x
  | Raise e => (indicateurs, Raise e)
  end.

(** [float(data_dict.get(cle, 0))] *)
Definition lire_nombre (py : builtins) (data_dict : gmap string cellule)
    (cle : string) : result float :=
  py_float py (dict_get data_dict cle (CInt 0)).

(** The [else] branch of the upload, v6.py 333-356, from the dict built
    out of the two columns of the file to the last assignment.  It returns
    the dict [indicateurs] as it leaves it, and either the name and the
    year it read or the exception that stopped it.  The warning on the sum
    of the age brackets (lines 350-353) changes nothing and is left out. *)
Definition importer (py : builtins) (data_dict : gmap string cellule)
    (indicateurs : gmap string float)
    : gmap string float * result (cellule * Z) :=
  let nom_entreprise :=
    dict_get data_dict "nom_entreprise" (CStr "Entreprise inconnue") in
  ou_arret indicateurs (py_int py (dict_get data_dict "annee" (CInt 2022)))
  (fun annee =>
  ou_arret indicateurs (lire_nombre py data_dict "taux_feminisation")
  (fun v1 =>
  let ind1 := <["taux_feminisation" := v1]> indicateurs in
  ou_arret ind1 (lire_nombre py data_dict "taux_femmes_cadres")
  (fun v2 =>
  let ind2 := <["taux_femmes_cadres" := v2]> ind1 in
  ou_arret ind2 (lire_nombre py data_dict "ecart_salaire")
  (fun v3 =>
  let ind3 := <["ecart_salaire" := v3]> ind2 in
  ou_arret ind3 (lire_nombre py data_dict "taux_handicap")
  (fun v4 =>
  let ind4 := <["taux_handicap" := v4]> ind3 in
  ou_arret ind4 (lire_nombre py data_dict "moins_30_ans")
  (fun moins_30 =>
  ou_arret ind4 (lire_nombre py data_dict "entre_30_50_ans")
  (fun entre_30_50 =>
  ou_arret ind4 (lire_nombre py data_dict "plus_50_ans")
  (fun plus_50 =>
  let ind5 :=
    <["equilibre_age" := calculer_equilibre_age moins_30 entre_30_50 plus_50]>
      ind4 in
  ou_arret ind5 (lire_nombre py data_dict "taux_absenteisme")
  (fun v6 =>
  let ind6 := <["taux_absenteisme" := v6]> ind5 in
  (ind6, Ok (nom_entreprise, annee))))))))))).

(** The dict built from the rows of a table, later rows winning:
    [dict(zip(data['Indicateur'], data['Valeur']))], v6.py 333. *)
Definition dict_zip (lignes : list (string * cellule))
    : gmap string cellule :=
  foldl (fun d '(k, c) => <[k := c]> d) ∅ lignes.

(** An uploaded table whose pay-gap row holds a text that is no number. *)
Definition data_dict_texte : gmap string cellule :=
  <["taux_feminisation" := CFloat 30]> (
  <["ecart_salaire" := CStr "5 %"]> ∅).

(** What the import stores when the file has none of the rows it reads. *)
Definition indicateurs_par_defaut : gmap string float :=
  <["taux_absenteisme" := 0%float]> (
  <["equilibre_age" := calculer_equilibre_age 0 0 0]> (
  <["taux_handicap" := 0%float]> (
  <["ecart_salaire" := 0%float]> (
  <["taux_femmes_cadres" := 0%float]> (
  <["taux_feminisation" := 0%float]> ∅))))).

(** ** The texts of the PDF report (v6.py 724-753 and 1042-1255) *)

(** The line feed that separates the lines of a text. *)
Definition saut_de_ligne : string := String (Ascii.ascii_of_nat 10) EmptyString.

(** The dict literal of [get_conclusion_phrase], v6.py 1248-1254. *)
Definition conclusions : gmap string string :=
  <["A" :=
     "démontre une excellence en matière de diversité et d'inclusion."]> (
  <["B" :=
     "présente de bonnes pratiques en matière de diversité et d'inclusion."]> (
  <["C" :=
     "a des résultats moyens en matière de diversité et d'inclusion."]> (
  <["D" :=
     "nécessite des améliorations significatives en matière de diversité et d'inclusion."]> (
  <["E" :=
     "doit mettre en place un plan d'action urgent pour améliorer la diversité et l'inclusion."]> (
  ∅))))).

(** [get_conclusion_phrase(note)], v6.py 1247-1255. *)
Definition get_conclusion_phrase (note : string) : string :=
  dict_get conclusions note
    "présente des résultats à analyser en matière de diversité et d'inclusion.".

(** The dict literal of [get_recommandations], v6.py 1183-1244; each text
    is a block of lines. *)
Definition recommandations : gmap string (gmap string string) :=
  <["Taux de féminisation global" :=
    <["D" :=
       "• Mettre en place un plan de recrutement ciblé pour les femmes"
       +:+ saut_de_ligne +:+
       "• Développer des partenariats avec des écoles/universités pour attirer les talents féminins"
       +:+ saut_de_ligne +:+
       "• Créer un programme de mentorat pour les femmes"
       +:+ saut_de_ligne +:+
       "• Communiquer sur les opportunités de carrière pour les femmes"]> (
    <["E" :=
       "• Établir un plan d'action urgent pour la féminisation"
       +:+ saut_de_ligne +:+
       "• Fixer des objectifs chiffrés de recrutement de femmes"
       +:+ saut_de_ligne +:+
       "• Former les recruteurs à la lutte contre les biais"
       +:+ saut_de_ligne +:+
       "• Mettre en place un réseau de femmes dans l'entreprise"]> (
    ∅))]> (
  <["Taux de femmes cadres" :=
    <["D" :=
       "• Identifier les femmes à fort potentiel"
       +:+ saut_de_ligne +:+
       "• Créer un programme de développement de carrière"
       +:+ saut_de_ligne +:+
       "• Mettre en place un système de parrainage"
       +:+ saut_de_ligne +:+
       "• Former les managers à la détection des talents"]> (
    <["E" :=
       "• Réviser les processus de promotion"
       +:+ saut_de_ligne +:+
       "• Créer un programme accéléré de développement des talents féminins"
       +:+ saut_de_ligne +:+
       "• Mettre en place un comité de suivi de la parité"
       +:+ saut_de_ligne +:+
       "• Établir des objectifs de progression annuels"]> (
    ∅))]> (
  <["Taux d'emploi handicap" :=
    <["D" :=
       "• Renforcer les partenariats avec les organismes spécialisés"
       +:+ saut_de_ligne +:+
       "• Former les managers à l'accueil des personnes en situation de handicap"
       +:+ saut_de_ligne +:+
       "• Adapter les postes de travail"
       +:+ saut_de_ligne +:+
       "• Sensibiliser les équipes"]> (
    <["E" :=
       "• Élaborer un plan d'action urgent pour atteindre le seuil légal"
       +:+ saut_de_ligne +:+
       "• Créer un poste dédié à l'inclusion des personnes en situation de handicap"
       +:+ saut_de_ligne +:+
       "• Mettre en place un réseau d'ambassadeurs"
       +:+ saut_de_ligne +:+
       "• Réviser les processus de recrutement"]> (
    ∅))]> (
  <["Écart de salaire H/F" :=
    <["D" :=
       "• Réaliser un audit complet des rémunérations"
       +:+ saut_de_ligne +:+
       "• Mettre en place un plan de rattrapage progressif"
       +:+ saut_de_ligne +:+
       "• Former les managers à l'équité salariale"
       +:+ saut_de_ligne +:+
       "• Établir des grilles de salaire transparentes"]> (
    <["E" :=
       "• Corriger immédiatement les écarts injustifiés"
       +:+ saut_de_ligne +:+
       "• Mettre en place un système de contrôle régulier"
       +:+ saut_de_ligne +:+
       "• Créer un comité de suivi des rémunérations"
       +:+ saut_de_ligne +:+
       "• Publier les indicateurs d'écart de rémunération"]> (
    ∅))]> (
  <["Équilibre des âges" :=
    <["D" :=
       "• Développer des programmes de transfert de compétences"
       +:+ saut_de_ligne +:+
       "• Mettre en place un système de tutorat intergénérationnel"
       +:+ saut_de_ligne +:+
       "• Adapter les conditions de travail pour tous les âges"
       +:+ saut_de_ligne +:+
       "• Promouvoir la diversité des âges dans la communication"]> (
    <["E" :=
       "• Élaborer un plan de renouvellement des effectifs"
       +:+ saut_de_ligne +:+
       "• Créer des programmes de reconversion"
       +:+ saut_de_ligne +:+
       "• Mettre en place un système de préparation à la retraite"
       +:+ saut_de_ligne +:+
       "• Développer des parcours de carrière adaptés"]> (
    ∅))]> (
  <["Taux d'absentéisme" :=
    <["D" :=
       "• Analyser les causes de l'absentéisme"
       +:+ saut_de_ligne +:+
       "• Mettre en place des actions de prévention"
       +:+ saut_de_ligne +:+
       "• Améliorer les conditions de travail"
       +:+ saut_de_ligne +:+
       "• Développer le télétravail"]> (
    <["E" :=
       "• Réaliser un audit complet des conditions de travail"
       +:+ saut_de_ligne +:+
       "• Mettre en place un plan d'action immédiat"
       +:+ saut_de_ligne +:+
       "• Renforcer le suivi médical"
       +:+ saut_de_ligne +:+
       "• Créer un groupe de travail dédié"]> (
    ∅))]> (
  ∅)))))).

(** [get_recommandations(indicateur, valeur, note)], v6.py 1182-1245; the
    value plays no part. *)
Definition get_recommandations (indicateur : string) (valeur : float)
    (note : string) : string :=
  dict_get (dict_get recommandations indicateur ∅) note
    "Aucune recommandation spécifique disponible.".

(** The dict literal of [get_analyse_indicateur], v6.py 1136-1179, whose
    texts embed [str(valeur)]. *)
Definition analyses (py : builtins) (valeur : float)
    : gmap string (gmap string string) :=
  let v := str_of_float py valeur in
  <["Taux de féminisation global" :=
    <["A" :=
       "Avec " +:+ v +:+ "% de femmes, l'entreprise montre une excellente parité."]> (
    <["B" :=
       "Avec " +:+ v +:+ "% de femmes, l'entreprise est proche de la parité."]> (
    <["C" :=
       "Avec " +:+ v +:+ "% de femmes, l'entreprise a une mixité moyenne."]> (
    <["D" :=
       "Avec " +:+ v +:+ "% de femmes, l'entreprise doit améliorer sa mixité."]> (
    <["E" :=
       "Avec " +:+ v +:+ "% de femmes, l'entreprise présente un déséquilibre important."]> (
    ∅)))))]> (
  <["Taux de femmes cadres" :=
    <["A" :=
       "Avec " +:+ v +:+ "% de femmes cadres, l'entreprise montre une excellente représentation des femmes aux postes de direction."]> (
    <["B" :=
       "Avec " +:+ v +:+ "% de femmes cadres, l'entreprise a une bonne représentation des femmes aux postes de direction."]> (
    <["C" :=
       "Avec " +:+ v +:+ "% de femmes cadres, l'entreprise a une représentation moyenne des femmes aux postes de direction."]> (
    <["D" :=
       "Avec " +:+ v +:+ "% de femmes cadres, l'entreprise doit améliorer la représentation des femmes aux postes de direction."]> (
    <["E" :=
       "Avec " +:+ v +:+ "% de femmes cadres, l'entreprise présente un déséquilibre important dans les postes de direction."]> (
    ∅)))))]> (
  <["Taux d'emploi handicap" :=
    <["A" :=
       "Avec " +:+ v +:+ "% de personnes en situation de handicap, l'entreprise dépasse largement le seuil légal de 6%."]> (
    <["B" :=
       "Avec " +:+ v +:+ "% de personnes en situation de handicap, l'entreprise respecte bien le seuil légal de 6%."]> (
    <["C" :=
       "Avec " +:+ v +:+ "% de personnes en situation de handicap, l'entreprise est proche du seuil légal de 6%."]> (
    <["D" :=
       "Avec " +:+ v +:+ "% de personnes en situation de handicap, l'entreprise est en dessous du seuil légal de 6%."]> (
    <["E" :=
       "Avec " +:+ v +:+ "% de personnes en situation de handicap, l'entreprise est très en dessous du seuil légal de 6%."]> (
    ∅)))))]> (
  <["Écart de salaire H/F" :=
    <["A" :=
       "Avec un écart de " +:+ v +:+ "%, l'entreprise montre une excellente équité salariale."]> (
    <["B" :=
       "Avec un écart de " +:+ v +:+ "%, l'entreprise montre une bonne équité salariale."]> (
    <["C" :=
       "Avec un écart de " +:+ v +:+ "%, l'entreprise a une équité salariale moyenne."]> (
    <["D" :=
       "Avec un écart de " +:+ v +:+ "%, l'entreprise doit améliorer son équité salariale."]> (
    <["E" :=
       "Avec un écart de " +:+ v +:+ "%, l'entreprise présente un écart salarial important."]> (
    ∅)))))]> (
  <["Équilibre des âges" :=
    <["A" :=
       "Avec un score d'équilibre de " +:+ v +:+ "%, l'entreprise montre une excellente diversité des âges."]> (
    <["B" :=
       "Avec un score d'équilibre de " +:+ v +:+ "%, l'entreprise montre une bonne diversité des âges."]> (
    <["C" :=
       "Avec un score d'équilibre de " +:+ v +:+ "%, l'entreprise a une diversité des âges moyenne."]> (
    <["D" :=
       "Avec un score d'équilibre de " +:+ v +:+ "%, l'entreprise doit améliorer sa diversité des âges."]> (
    <["E" :=
       "Avec un score d'équilibre de " +:+ v +:+ "%, l'entreprise présente un déséquilibre important des âges."]> (
    ∅)))))]> (
  <["Taux d'absentéisme" :=
    <["A" :=
       "Avec un taux d'absentéisme de " +:+ v +:+ "%, l'entreprise montre une excellente gestion de la santé au travail."]> (
    <["B" :=
       "Avec un taux d'absentéisme de " +:+ v +:+ "%, l'entreprise montre une bonne gestion de la santé au travail."]> (
    <["C" :=
       "Avec un taux d'absentéisme de " +:+ v +:+ "%, l'entreprise a une gestion moyenne de la santé au travail."]> (
    <["D" :=
       "Avec un taux d'absentéisme de " +:+ v +:+ "%, l'entreprise doit améliorer sa gestion de la santé au travail."]> (
    <["E" :=
       "Avec un taux d'absentéisme de " +:+ v +:+ "%, l'entreprise présente des problèmes importants de santé au travail."]> (
    ∅)))))]> (
  ∅)))))).

(** [get_analyse_indicateur(indicateur, valeur, note)], v6.py 1129-1180. *)
Definition get_analyse_indicateur (py : builtins) (indicateur : string)
    (valeur : float) (note : string) : string :=
  if float_eq valeur 0
  then "Données non disponibles pour cet indicateur."
  else dict_get (dict_get (analyses py valeur) indicateur ∅) note
         "Analyse non disponible.".

(** [mapping_indicateurs], v6.py 730-737. *)
Definition mapping_indicateurs : gmap string string :=
  <["Taux de féminisation global" := "taux_feminisation"]> (
  <["Taux de femmes cadres" := "taux_femmes_cadres"]> (
  <["Taux d'emploi handicap" := "taux_handicap"]> (
  <["Écart de salaire H/F" := "ecart_salaire"]> (
  <["Équilibre des âges" := "equilibre_age"]> (
  <["Taux d'absentéisme" := "taux_absenteisme"]> ∅))))).

(** The keys of the dict literal [resultats] in the order in which the
    literal inserts them, v6.py 1275-1282. *)
Definition ordre_resultats : list string :=
  ["Taux de féminisation global"; "Taux de femmes cadres";
   "Taux d'emploi handicap"; "Écart de salaire H/F"; "Équilibre des âges";
   "Taux d'absentéisme"].

(** [resultats.items()] for a dict built by that literal. *)
Definition resultats_items (resultats : gmap string string)
    : list (string * string) :=
  omap (fun k => pair k <$> resultats !! k) ordre_resultats.

(** The direction in which the literal [resultats] grades an indicator:
    the pay gap and absenteeism are graded with [False]. *)
Definition ordre_croissant_de (indicateur : string) : bool :=
  negb (bool_decide (indicateur ∈ ["Écart de salaire H/F";
                                   "Taux d'absentéisme"])).

(** An entry of ["resultats"] in the data of the PDF. *)
Record donnees_indicateur : Type := DonneesIndicateur {
  di_note : string;
  di_valeur : float;
  di_seuils : list float
}.

(** The dict returned by [prepare_data_for_pdf]; ["resultats"] keeps
    the order of the items it is built from. *)
Record donnees_pdf : Type := DonneesPdf {
  dp_resultats : list (string * donnees_indicateur);
  dp_points_forts : list string;
  dp_axes_amelioration : list string;
  dp_note_globale : string;
  dp_score_global : float
}.

(** A comprehension whose element expression may raise. *)
Fixpoint pour_chaque {X Y} (f : X -> result Y) (l : list X)
    : result (list Y) :=
  match l with
  | [] => Ok []
  | x :: suite => y ← f x; ys ← pour_chaque f suite; Ok (y :: ys)
  end.

(** The body of the [try] of [prepare_data_for_pdf], v6.py 728-751, on
    the items of [resultats]; the [except] clause re-raises whatever it
    catches as a plain [Exception] carrying its message. *)
Definition prepare_data_for_pdf_corps (resultats : list (string * string))
    (points_forts axes_amelioration : list string) (note_globale : string)
    (score_global : float) (indicateurs : gmap string float)
    : result donnees_pdf :=
  entrees ← pour_chaque (fun '(k, v) =>
      cle ← dict_getitem mapping_indicateurs k;
      Ok (k, DonneesIndicateur v
               (dict_get indicateurs cle 0%float)
               (dict_get seuils cle [0; 0; 0; 0]%float)))
    resultats;
  Ok (DonneesPdf entrees
        (if bool_decide (points_forts = []) then [] else points_forts)
        (if bool_decide (axes_amelioration = []) then []
         else axes_amelioration)
        note_globale score_global).

(** [s.split('\n')] *)
Fixpoint split_lignes (s : string) : list string :=
  match s with
  | EmptyString => [EmptyString]
  | String c s' =>
      if Ascii.eqb c (Ascii.ascii_of_nat 10) then EmptyString :: split_lignes s'
      else match split_lignes s' with
           | [] => [String c EmptyString]
           | ligne :: lignes => String c ligne :: lignes
           end
  end.

(** The white space of ASCII; the texts of the script hold no other. *)
Definition est_espace (c : Ascii.ascii) : bool :=
  let n := Ascii.nat_of_ascii c in
  (n =? 32)%nat || ((9 <=? n)%nat && (n <=? 13)%nat)
  || ((28 <=? n)%nat && (n <=? 31)%nat).

(** The truth value of [s.strip()]: some character is not white space. *)
Fixpoint non_blanc (s : string) : bool :=
  match s with
  | EmptyString => false
  | String c s' => negb (est_espace c) || non_blanc s'
  end.

(** The entry ['recommandations'] of [template_data], v6.py 1058-1063. *)
Definition recommandations_pdf (resultats : list (string * donnees_indicateur))
    : list string :=
  flat_map (fun '(indicateur, note) =>
      if bool_decide (di_note note ∈ ["D"; "E"])
      then filter (fun reco => non_blanc reco = true)
             (split_lignes
                (get_recommandations indicateur (di_valeur note)
                                     (di_note note)))
      else [])
    resultats.

(** The texts ['analyse'] of the entry ['resultats'] of [template_data],
    v6.py 1051. *)
Definition analyses_pdf (py : builtins)
    (resultats : list (string * donnees_indicateur)) : list string :=
  (fun '(k, v) => get_analyse_indicateur py k (di_valeur v) (di_note v))
  <$> resultats.

(** The grades that call for recommendations. *)
Definition est_faible (g : Grade) : bool :=
  match g with
  | D | E => true
  | A | B | C => false
  end.

(** How many of the grades are D or E. *)
Definition nombre_faibles (gs : list Grade) : nat :=
  length (List.filter est_faible gs).

(** * Part II: properties *)

(** ** Sample runs *)

Example attribuer_note_40 :
  attribuer_note 40 [40; 35; 30; 25]%float true = Ok "A".
Proof. reflexivity. Qed.

Example attribuer_note_39_9 :
  attribuer_note 39.9 [40; 35; 30; 25]%float true = Ok "B".
Proof. reflexivity. Qed.

Example attribuer_note_25 :
  attribuer_note 25 [40; 35; 30; 25]%float true = Ok "D".
Proof. reflexivity. Qed.

Example attribuer_note_24_9 :
  attribuer_note 24.9 [40; 35; 30; 25]%float true = Ok "E".
Proof. reflexivity. Qed.

Example attribuer_note_2_1 :
  attribuer_note 2.1 [2; 4; 8; 12]%float false = Ok "B".
Proof. reflexivity. Qed.

Example attribuer_note_12_1 :
  attribuer_note 12.1 [2; 4; 8; 12]%float false = Ok "E".
Proof. reflexivity. Qed.

(** A list that is too short is only a problem when the chain gets to the
    missing rung. *)
Example attribuer_note_court :
  attribuer_note 50 [40]%float true = Ok "A" /\
  attribuer_note 30 [40]%float true = Raise IndexError.
Proof. split; reflexivity. Qed.

(** NaN fails every comparison. *)
Example attribuer_note_nan :
  attribuer_note nan [40; 35; 30; 25]%float true = Ok "E" /\
  attribuer_note nan [2; 4; 8; 12]%float false = Ok "E".
Proof. split; reflexivity. Qed.

Example note_vers_chiffre_C : note_vers_chiffre "C" = 3%Z.
Proof. vm_compute. reflexivity. Qed.

Example calculer_equilibre_age_100_0_0 :
  calculer_equilibre_age 100 0 0 = 33.338333083345837%float.
Proof. vm_compute. reflexivity. Qed.

Example calculer_equilibre_age_equilibre :
  calculer_equilibre_age 33.33 33.33 33.34 = 99.995000249987498%float.
Proof. vm_compute. reflexivity. Qed.

Example rapport_defaut :
  exists resultats : gmap string string,
    rapport indicateurs_defaut =
    Some (Ok (Evaluation resultats 3.3333333333333335 "C")).
Proof. eexists. vm_compute. reflexivity. Qed.

Example rapport_vide : rapport ∅ = None.
Proof. vm_compute. reflexivity. Qed.

(** ** Order facts on binary64 comparisons *)

Module FloatOrder.

Lemma lex_spec e1 m1 e2 m2 :
  match lex e1 m1 e2 m2 with
  | Lt => (e1 < e2 \/ e1 = e2 /\ Z.pos m1 < Z.pos m2)%Z
  | Eq => e1 = e2 /\ m1 = m2
  | Gt => (e2 < e1 \/ e1 = e2 /\ Z.pos m2 < Z.pos m1)%Z
  end.
Proof.
  unfold lex. destruct (Z.compare_spec e1 e2); try lia.
  change (Pos.compare_cont Eq m1 m2) with (Pos.compare m1 m2).
  destruct (Pos.compare_spec m1 m2); lia.
Qed.

Lemma lex_refl e m : lex e m e m = Eq.
Proof. unfold lex. rewrite Z.compare_refl. apply Pos.compare_refl. Qed.

(** Two negative numbers compare the other way round. *)
Lemma lex_opp e1 m1 e2 m2 :
  match Z.compare e1 e2 with
  | Lt => Gt
  | Gt => Lt
  | Eq => CompOpp (Pos.compare_cont Eq m1 m2)
  end = CompOpp (lex e1 m1 e2 m2).
Proof. unfold lex. now destruct (Z.compare e1 e2). Qed.

Lemma SFcompare_eq_sym (a b : spec_float) :
  SFcompare a b = Some Eq -> SFcompare b a = Some Eq.
Proof.
  destruct a as [[]|[]| |[] m1 e1], b as [[]|[]| |[] m2 e2];
    simpl; try congruence;
    rewrite ?lex_opp; fold (lex e1 m1 e2 m2); fold (lex e2 m2 e1 m1);
    pose proof (lex_spec e1 m1 e2 m2) as H;
    destruct (lex e1 m1 e2 m2); simpl; try congruence;
    destruct H as [-> ->]; now rewrite lex_refl.
Qed.

Lemma SFleb_trans (a b c : spec_float) :
  SFleb a b = true -> SFleb b c = true -> SFleb a c = true.
Proof.
  unfold SFleb.
  destruct a as [[]|[]| |[] m1 e1], b as [[]|[]| |[] m2 e2],
           c as [[]|[]| |[] m3 e3];
    simpl; try congruence;
    rewrite ?lex_opp;
    fold (lex e1 m1 e2 m2); fold (lex e2 m2 e3 m3); fold (lex e1 m1 e3 m3);
    pose proof (lex_spec e1 m1 e2 m2) as H12;
    pose proof (lex_spec e2 m2 e3 m3) as H23;
    pose proof (lex_spec e1 m1 e3 m3) as H13;
    destruct (lex e1 m1 e2 m2), (lex e2 m2 e3 m3), (lex e1 m1 e3 m3);
    simpl; try congruence; exfalso; lia.
Qed.

Lemma SFeqb_leb (a b : spec_float) : SFeqb a b = true -> SFleb a b = true.
Proof. unfold SFeqb, SFleb. now destruct (SFcompare a b) as [[]|]. Qed.

Lemma SFeqb_sym (a b : spec_float) : SFeqb a b = true -> SFeqb b a = true.
Proof.
  unfold SFeqb. destruct (SFcompare a b) as [[]|] eqn:Hc; try discriminate.
  now rewrite (SFcompare_eq_sym _ _ Hc).
Qed.

(** The same facts on Python's comparisons. *)

Lemma le_trans (x y z : float) :
  float_le x y = true -> float_le y z = true -> float_le x z = true.
Proof. unfold float_le. rewrite !leb_spec. apply SFleb_trans. Qed.

Lemma ge_le (x y : float) : float_ge x y = float_le y x.
Proof. reflexivity. Qed.

Lemma eq_le (x y : float) : float_eq x y = true -> float_le x y = true.
Proof.
  unfold float_eq, float_le. rewrite FloatAxioms.eqb_spec, leb_spec.
  apply SFeqb_leb.
Qed.

Lemma eq_ge (x y : float) : float_eq x y = true -> float_ge x y = true.
Proof.
  unfold float_eq, float_ge. rewrite FloatAxioms.eqb_spec, leb_spec.
  intros H. now apply SFeqb_leb, SFeqb_sym.
Qed.

End FloatOrder.

(** ** Shared lemmas on the ladders *)

Lemma lettre_inj (g1 g2 : Grade) : lettre g1 = lettre g2 -> g1 = g2.
Proof. destruct g1, g2; simpl; congruence. Qed.

Lemma echelon_grade_echelle (p0 p1 p2 p3 : bool) (g : Grade) :
  echelon p0 p1 p2 p3 g <-> g = grade_echelle p0 p1 p2 p3.
Proof.
  destruct p0, p1, p2, p3, g; simpl; split; intros H;
    repeat match goal with
           | H : _ /\ _ |- _ => destruct H
           end;
    try congruence; repeat split; congruence.
Qed.

Lemma grade_echelle_mono (p0 p1 p2 p3 q0 q1 q2 q3 : bool) :
  (p0 = true -> q0 = true) -> (p1 = true -> q1 = true) ->
  (p2 = true -> q2 = true) -> (p3 = true -> q3 = true) ->
  au_moins (grade_echelle p0 p1 p2 p3) (grade_echelle q0 q1 q2 q3).
Proof.
  unfold au_moins.
  destruct p0, p1, p2, p3; simpl; intros H0 H1 H2 H3;
    try rewrite (H0 eq_refl); try rewrite (H1 eq_refl);
    try rewrite (H2 eq_refl); try rewrite (H3 eq_refl);
    destruct q0, q1, q2, q3; simpl; lia.
Qed.

(** A rung that is passed bounds the grade from below. *)
Lemma grade_echelle_rung (p0 p1 p2 p3 : bool) (i : nat) (gi : Grade) :
  [p0; p1; p2; p3] !! i = Some true ->
  [A; B; C; D] !! i = Some gi ->
  au_moins gi (grade_echelle p0 p1 p2 p3).
Proof.
  unfold au_moins.
  destruct i as [|[|[|[|i]]]]; simpl; intros Hp Hg;
    try discriminate;
    injection Hp as ->; injection Hg as <-;
    repeat match goal with
           | b : bool |- _ => destruct b
           end; simpl; lia.
Qed.

Lemma attribuer_note_croissant (v t0 t1 t2 t3 : float) :
  attribuer_note v [t0; t1; t2; t3] true =
  Ok (lettre (grade_echelle (float_ge v t0) (float_ge v t1)
                            (float_ge v t2) (float_ge v t3))).
Proof.
  unfold attribuer_note; simpl.
  destruct (float_ge v t0); [reflexivity|].
  destruct (float_ge v t1); [reflexivity|].
  destruct (float_ge v t2); [reflexivity|].
  destruct (float_ge v t3); reflexivity.
Qed.

Lemma attribuer_note_decroissant (v t0 t1 t2 t3 : float) :
  attribuer_note v [t0; t1; t2; t3] false =
  Ok (lettre (grade_echelle (float_le v t0) (float_le v t1)
                            (float_le v t2) (float_le v t3))).
Proof.
  unfold attribuer_note; simpl.
  destruct (float_le v t0); [reflexivity|].
  destruct (float_le v t1); [reflexivity|].
  destruct (float_le v t2); [reflexivity|].
  destruct (float_le v t3); reflexivity.
Qed.

Lemma chiffre_vers_note_grade (s : float) :
  chiffre_vers_note s =
  lettre (grade_echelle (float_ge s 4.5) (float_ge s 3.5)
                        (float_ge s 2.5) (float_ge s 1.5)).
Proof.
  unfold chiffre_vers_note.
  destruct (float_ge s 4.5); [reflexivity|].
  destruct (float_ge s 3.5); [reflexivity|].
  destruct (float_ge s 2.5); [reflexivity|].
  destruct (float_ge s 1.5); reflexivity.
Qed.

(** The order of the thresholds plays no part: the grade follows the
    value upwards on any ladder. *)
Lemma attribuer_note_croissant_mono (t0 t1 t2 t3 v1 v2 : float) :
  float_le v1 v2 = true ->
  au_moins
    (grade_echelle (float_ge v1 t0) (float_ge v1 t1)
                   (float_ge v1 t2) (float_ge v1 t3))
    (grade_echelle (float_ge v2 t0) (float_ge v2 t1)
                   (float_ge v2 t2) (float_ge v2 t3)).
Proof.
  intros Hv.
  apply grade_echelle_mono; rewrite !FloatOrder.ge_le; intros Ht;
    exact (FloatOrder.le_trans _ _ _ Ht Hv).
Qed.

(** ** The per-indicator ladder *)

(** C1: on a four-element threshold list [attribuer_note] always returns a
    grade letter, and that grade is fixed by the first comparison that
    holds: with [ordre_croissant] the tests are [v >= t0], [v >= t1],
    [v >= t2], [v >= t3] in this order (A, B, C, D, else E); without it they
    are [v <= t0] .. [v <= t3].  The comparisons are inclusive: a value
    that Python's [==] finds equal to the threshold of rung [i] gets the
    grade of that rung or a better one, in either direction. *)
Theorem attribuer_note_ladder (v t0 t1 t2 t3 : float) :
  (exists g, attribuer_note v [t0; t1; t2; t3] true = Ok (lettre g)) /\
  (forall g,
     attribuer_note v [t0; t1; t2; t3] true = Ok (lettre g) <->
     echelon (float_ge v t0) (float_ge v t1) (float_ge v t2)
             (float_ge v t3) g) /\
  (exists g, attribuer_note v [t0; t1; t2; t3] false = Ok (lettre g)) /\
  (forall g,
     attribuer_note v [t0; t1; t2; t3] false = Ok (lettre g) <->
     echelon (float_le v t0) (float_le v t1) (float_le v t2)
             (float_le v t3) g) /\
  (forall (i : nat) (ti : float) (gi g : Grade) (ordre_croissant : bool),
     [t0; t1; t2; t3] !! i = Some ti ->
     [A; B; C; D] !! i = Some gi ->
     float_eq v ti = true ->
     attribuer_note v [t0; t1; t2; t3] ordre_croissant = Ok (lettre g) ->
     au_moins gi g).
Proof.
  rewrite attribuer_note_croissant, attribuer_note_decroissant.
  split; [eexists; reflexivity|].
  split.
  { intros g. rewrite echelon_grade_echelle. split.
    - intros [= H]. now apply lettre_inj.
    - now intros ->. }
  split; [eexists; reflexivity|].
  split.
  { intros g. rewrite echelon_grade_echelle. split.
    - intros [= H]. now apply lettre_inj.
    - now intros ->. }
  intros i ti gi g [] Hti Hgi Heq.
  - rewrite attribuer_note_croissant. intros [= H].
    apply lettre_inj in H as <-.
    apply (grade_echelle_rung _ _ _ _ i); [|exact Hgi].
    pose proof (FloatOrder.eq_ge _ _ Heq) as Hge.
    destruct i as [|[|[|[|i]]]]; simpl in *; try discriminate;
      injection Hti as <-; now rewrite Hge.
  - rewrite attribuer_note_decroissant. intros [= H].
    apply lettre_inj in H as <-.
    apply (grade_echelle_rung _ _ _ _ i); [|exact Hgi].
    pose proof (FloatOrder.eq_le _ _ Heq) as Hle.
    destruct i as [|[|[|[|i]]]]; simpl in *; try discriminate;
      injection Hti as <-; now rewrite Hle.
Qed.

(** C8: with [ordre_croissant] and thresholds [t0 > t1 > t2 > t3], a value
    [v2] with [v1 <= v2] gets a grade at least as good as the grade of
    [v1]. *)
Theorem attribuer_note_monotone (t0 t1 t2 t3 v1 v2 : float) :
  float_gt t0 t1 = true -> float_gt t1 t2 = true ->
  float_gt t2 t3 = true ->
  float_le v1 v2 = true ->
  exists g1 g2,
    attribuer_note v1 [t0; t1; t2; t3] true = Ok (lettre g1) /\
    attribuer_note v2 [t0; t1; t2; t3] true = Ok (lettre g2) /\
    au_moins g1 g2.
Proof.
  intros _ _ _ Hv.
  rewrite !attribuer_note_croissant.
  do 2 eexists. split; [reflexivity|]. split; [reflexivity|].
  now apply attribuer_note_croissant_mono.
Qed.

Lemma attribuer_note_monotone_witness :
  exists g1 g2,
    attribuer_note 30 [40; 35; 30; 25]%float true = Ok (lettre g1) /\
    attribuer_note 36 [40; 35; 30; 25]%float true = Ok (lettre g2) /\
    au_moins g1 g2.
Proof.
  apply (attribuer_note_monotone 40 35 30 25 30 36); reflexivity.
Defined.

(** ** The aggregate ladder *)

Lemma chiffre_vers_note_attribuer_note (s : float) :
  attribuer_note s echelle_globale true = Ok (chiffre_vers_note s).
Proof.
  unfold echelle_globale.
  now rewrite attribuer_note_croissant, chiffre_vers_note_grade.
Qed.

(** Every entry of [seuils] is one of the six literal lists. *)
Lemma seuils_lookup (k : string) (l : list float) :
  seuils !! k = Some l ->
  l = [40; 35; 30; 25]%float \/ l = [35; 30; 25; 20]%float \/
  l = [6; 5; 4; 3]%float \/ l = [2; 4; 8; 12]%float \/
  l = [85; 75; 65; 55]%float \/ l = [2.5; 3.5; 4.5; 5.5]%float.
Proof.
  unfold seuils. intros H.
  repeat (apply lookup_insert_Some in H as [[_ <-]|[_ H]]; [tauto|]).
  now rewrite lookup_empty in H.
Qed.

(** C3: [chiffre_vers_note] always returns a grade letter, fixed by the
    first of the tests [s >= 4.5], [s >= 3.5], [s >= 2.5], [s >= 1.5] that
    holds (A, B, C, D, else E); and no indicator of the table [seuils] has
    these four cut points as its ladder. *)
Theorem chiffre_vers_note_ladder (s : float) :
  (exists g, chiffre_vers_note s = lettre g) /\
  (forall g,
     chiffre_vers_note s = lettre g <->
     echelon (float_ge s 4.5) (float_ge s 3.5) (float_ge s 2.5)
             (float_ge s 1.5) g) /\
  (forall (k : string) (l : list float),
     seuils !! k = Some l -> l <> echelle_globale).
Proof.
  rewrite chiffre_vers_note_grade.
  split; [eexists; reflexivity|].
  split.
  { intros g. rewrite echelon_grade_echelle. split.
    - now intros H%lettre_inj.
    - now intros ->. }
  intros k l Hk Heq.
  assert (Hhd : match l with
                | x :: _ => float_eq x 4.5
                | [] => false
                end = true) by now rewrite Heq.
  apply seuils_lookup in Hk as [->|[->|[->|[->|[->| ->]]]]];
    vm_compute in Hhd; discriminate.
Qed.

(** ** The age balance *)

(** C4: [calculer_equilibre_age] computes, operation for operation in
    binary64, [(1 - mean(|x_i - 33.33|) / 66.67) * 100]; on (100, 0, 0) the
    result is within 0.01 of 33.33. *)
Theorem calculer_equilibre_age_balance :
  (forall under30 between30and50 over50 : float,
     calculer_equilibre_age under30 between30and50 over50 =
     balance under30 between30and50 over50) /\
  float_lt (abs (calculer_equilibre_age 100 0 0 - 33.33)) 0.01 = true.
Proof.
  split; [reflexivity|].
  vm_compute. reflexivity.
Qed.

(** C9: the balance is not clamped to [0, 100]: on (300, 0, 0) the mean
    deviation exceeds 66.67 and the score returned is strictly negative. *)
Theorem calculer_equilibre_age_negatif :
  exists moins_30 entre_30_50 plus_50 : float,
    float_gt (mean_deviation moins_30 entre_30_50 plus_50) 66.67 = true /\
    float_lt (calculer_equilibre_age moins_30 entre_30_50 plus_50) 0 = true.
Proof.
  exists 300%float, 0%float, 0%float.
  split; vm_compute; reflexivity.
Qed.

(** ** The aggregate score *)

(** Side conditions on literal keys: a key is absent from a map built by
    inserting other literal keys. *)
Ltac cle_absente := rewrite ?lookup_insert_ne by done; apply lookup_empty.

Section Somme.

Lemma foldl_add (a : Z) (xs : list Z) :
  foldl Z.add a xs = (a + foldr Z.add 0 xs)%Z.
Proof.
  revert a. induction xs as [|x xs IH]; intros a; simpl.
  - lia.
  - rewrite IH. lia.
Qed.

Lemma py_sum_cons (x : Z) (xs : list Z) :
  py_sum (x :: xs) = (x + py_sum xs)%Z.
Proof. unfold py_sum. simpl. rewrite !foldl_add. lia. Qed.

Lemma py_sum_Permutation (xs ys : list Z) :
  xs ≡ₚ ys -> py_sum xs = py_sum ys.
Proof.
  induction 1 as [|x xs ys _ IH|x y xs|xs ys zs _ IH1 _ IH2].
  - reflexivity.
  - rewrite !py_sum_cons. lia.
  - rewrite !py_sum_cons. lia.
  - congruence.
Qed.

Lemma dict_values_fmap {X Y} (f : X -> Y) (d : gmap string X) :
  dict_values (f <$> d) = f <$> dict_values d.
Proof.
  unfold dict_values. rewrite map_to_list_fmap, <- !list_fmap_compose.
  apply list_fmap_ext. now intros _ [k x] _.
Qed.

Lemma dict_values_insert {X} (d : gmap string X) (k : string) (x : X) :
  d !! k = None -> dict_values (<[k := x]> d) ≡ₚ x :: dict_values d.
Proof.
  intros H. unfold dict_values.
  now rewrite (map_to_list_insert d k x H).
Qed.

Lemma py_sum_values_insert (d : gmap string Z) (k : string) (x : Z) :
  d !! k = None ->
  py_sum (dict_values (<[k := x]> d)) = (x + py_sum (dict_values d))%Z.
Proof.
  intros H. rewrite (py_sum_Permutation _ _ (dict_values_insert d k x H)).
  apply py_sum_cons.
Qed.

Lemma dict_len_insert {X} (d : gmap string X) (k : string) (x : X) :
  d !! k = None -> dict_len (<[k := x]> d) = (1 + dict_len d)%Z.
Proof.
  intros H. unfold dict_len. rewrite map_size_insert_None by exact H. lia.
Qed.

Lemma dict_bool_true {X} (d : gmap string X) :
  dict_bool d = true <-> d <> ∅.
Proof.
  unfold dict_bool, dict_len. rewrite <- map_size_non_empty_iff.
  destruct (Z.eqb_spec (Z.of_nat (size d)) 0); simpl; split;
    intros; try lia; try discriminate; reflexivity.
Qed.

End Somme.

(** The dict [conversion] answers exactly on the five letters. *)
Lemma note_vers_chiffre_lettre (g : Grade) :
  note_vers_chiffre (lettre g) = points g.
Proof. destruct g; vm_compute; reflexivity. Qed.


Lemma notes_numeriques_lettre (gs : gmap string Grade) :
  notes_numeriques (lettre <$> gs) = points <$> gs.
Proof.
  unfold notes_numeriques. rewrite <- map_fmap_compose.
  apply map_fmap_ext. intros _ g _. apply note_vers_chiffre_lettre.
Qed.

(** C2: on a non-empty collection of grades the global score is the
    unweighted mean of the values A=5, B=4, C=3, D=2, E=1. *)
Theorem score_global_moyenne (gs : gmap string Grade) :
  gs <> ∅ ->
  score_global (lettre <$> gs) = Ok (moyenne_points gs).
Proof.
  intros Hne. unfold score_global, moyenne_points.
  rewrite notes_numeriques_lettre, dict_values_fmap.
  unfold int_truediv, dict_len. rewrite map_size_fmap.
  apply map_size_non_empty_iff in Hne.
  destruct (Z.eqb_spec (Z.of_nat (size gs)) 0) as [H0|_]; [lia|reflexivity].
Qed.

(** The three sample score cards: (A,B,C,D,E,C) gives 3.0, six A's give
    5.0, six E's give 1.0. *)
Lemma score_global_moyenne_witness :
  score_global (lettre <$> carte A B C D E C) = Ok 3%float /\
  score_global (lettre <$> carte A A A A A A) = Ok 5%float /\
  score_global (lettre <$> carte E E E E E E) = Ok 1%float.
Proof.
  split; [|split].
  - rewrite (score_global_moyenne (carte A B C D E C)).
    + vm_compute. reflexivity.
    + apply insert_non_empty.
  - rewrite (score_global_moyenne (carte A A A A A A)).
    + vm_compute. reflexivity.
    + apply insert_non_empty.
  - rewrite (score_global_moyenne (carte E E E E E E)).
    + vm_compute. reflexivity.
    + apply insert_non_empty.
Defined.

(** The sum and the count of a score card, entry by entry. *)
Lemma carte_somme (g1 g2 g3 g4 g5 g6 : Grade) :
  py_sum (dict_values (points <$> carte g1 g2 g3 g4 g5 g6)) =
  (points g1 + points g2 + points g3 + points g4 + points g5 + points g6)%Z
  /\ dict_len (points <$> carte g1 g2 g3 g4 g5 g6) = 6%Z.
Proof.
  unfold carte. rewrite !fmap_insert, fmap_empty.
  rewrite !py_sum_values_insert, !dict_len_insert by cle_absente.
  unfold dict_values, dict_len.
  rewrite map_to_list_empty, map_size_empty. simpl. unfold py_sum. simpl.
  split; lia.
Qed.

Lemma points_bornes (g : Grade) : (1 <= points g <= 5)%Z.
Proof. destruct g; simpl; lia. Qed.

(** Checked on each of the 25 integers from 6 to 30. *)
Lemma sixieme_borne_ok (z : Z) : (6 <= z <= 30)%Z -> sixieme_borne z = true.
Proof.
  intros Hz.
  assert (Hall : forallb sixieme_borne (Z.of_nat <$> seq 6 25) = true)
    by (vm_compute; reflexivity).
  rewrite forallb_forall in Hall. apply Hall.
  apply list_elem_of_In, list_elem_of_fmap. exists (Z.to_nat z). split; [lia|].
  apply elem_of_seq. lia.
Qed.

Lemma score_global_carte (g1 g2 g3 g4 g5 g6 : Grade) :
  score_global (lettre <$> carte g1 g2 g3 g4 g5 g6) =
  int_truediv
    (points g1 + points g2 + points g3 + points g4 + points g5 + points g6)
    6.
Proof.
  unfold score_global. rewrite notes_numeriques_lettre.
  now destruct (carte_somme g1 g2 g3 g4 g5 g6) as [-> ->].
Qed.

Lemma int_truediv_points (g1 g2 g3 g4 g5 g6 : Grade) :
  exists s : float,
    int_truediv
      (points g1 + points g2 + points g3 + points g4 + points g5 + points g6)
      6 = Ok s /\
    float_le 1 s = true /\ float_le s 5 = true.
Proof.
  pose proof (points_bornes g1). pose proof (points_bornes g2).
  pose proof (points_bornes g3). pose proof (points_bornes g4).
  pose proof (points_bornes g5). pose proof (points_bornes g6).
  set (z := (points g1 + points g2 + points g3 + points g4 + points g5
             + points g6)%Z).
  assert (Hb : sixieme_borne z = true) by (apply sixieme_borne_ok; lia).
  unfold sixieme_borne in Hb.
  destruct (int_truediv z 6) as [s|e]; [|discriminate].
  exists s. apply andb_true_iff in Hb. tauto.
Qed.

(** C7: whatever grade each of the six indicators receives, the global
    score is a float between 1.0 and 5.0, bounds included. *)
Theorem score_global_bornes (g1 g2 g3 g4 g5 g6 : Grade) :
  exists s : float,
    score_global (lettre <$> carte g1 g2 g3 g4 g5 g6) = Ok s /\
    float_le 1 s = true /\ float_le s 5 = true.
Proof. rewrite score_global_carte. apply int_truediv_points. Qed.

(** ** Grades outside the five letters *)


(** ** The empty aggregate *)

(** On an empty collection the error raised is not the one the
    specification names. *)
Lemma score_global_vide_counterexample :
  ~ exists e : exn,
      score_global ∅ = Raise e /\ exn_name e = InvalidAggregateInputError.
Proof.
  intros [e [H Hname]]. vm_compute in H. injection H as <-.
  vm_compute in Hname. discriminate.
Qed.

Lemma calcul_resultats_taille (indicateurs : gmap string float)
    (resultats : gmap string string) :
  calcul_resultats indicateurs = Ok resultats -> size resultats = 6.
Proof.
  unfold calcul_resultats. intros H.
  repeat match type of H with
         | mbind _ ?r = _ =>
             let x := fresh "x" in
             destruct r as [x|]; simpl in H; [|discriminate]
         end.
  injection H as <-.
  rewrite !map_size_insert_None by cle_absente.
  now rewrite map_size_empty.
Qed.

(** C5 (amended): on an empty collection the division itself is reached
    and raises Python's [ZeroDivisionError]; no float, hence neither NaN
    nor zero, is returned.  The script never gets there: a [resultats]
    dict that was built has exactly six entries. *)
Theorem score_global_vide :
  score_global ∅ = Raise ZeroDivisionError /\
  (forall s : float, score_global ∅ <> Ok s) /\
  (forall (indicateurs : gmap string float) (resultats : gmap string string),
     calcul_resultats indicateurs = Ok resultats -> size resultats = 6).
Proof.
  split; [vm_compute; reflexivity|].
  split; [intros s H; vm_compute in H; discriminate|].
  exact calcul_resultats_taille.
Qed.

(** ** Keys outside the table *)

Lemma dict_getitem_Some {X} (d : gmap string X) (k : string) (x : X) :
  d !! k = Some x -> dict_getitem d k = Ok x.
Proof. intros H. unfold dict_getitem. now rewrite H. Qed.

Lemma dict_getitem_insert_ne {X} (d : gmap string X) (k k' : string) (x : X) :
  k <> k' -> dict_getitem (<[k := x]> d) k' = dict_getitem d k'.
Proof. intros H. unfold dict_getitem. now rewrite lookup_insert_ne. Qed.

Lemma dict_contains_insert_ne {X} (d : gmap string X) (k k' : string)
    (x : X) :
  k <> k' -> dict_contains (<[k := x]> d) k' = dict_contains d k'.
Proof. intros H. unfold dict_contains. now rewrite lookup_insert_ne. Qed.

Lemma dict_bool_insert {X} (d : gmap string X) (k : string) (x : X) :
  dict_bool (<[k := x]> d) = true.
Proof. apply dict_bool_true, insert_non_empty. Qed.

Lemma verifier_indicateurs_insert (requis : list string)
    (indicateurs : gmap string float) (k : string) (v : float) :
  k ∉ requis ->
  verifier_indicateurs requis (<[k := v]> indicateurs) =
  verifier_indicateurs requis indicateurs.
Proof.
  induction requis as [|ind suite IH]; intros Hk; simpl; [reflexivity|].
  apply not_elem_of_cons in Hk as [Hne Hk].
  rewrite dict_contains_insert_ne by exact Hne.
  now rewrite IH.
Qed.

Lemma calcul_resultats_insert (indicateurs : gmap string float)
    (k : string) (v : float) :
  k ∉ indicateurs_requis ->
  calcul_resultats (<[k := v]> indicateurs) = calcul_resultats indicateurs.
Proof.
  intros Hk. unfold calcul_resultats.
  rewrite !(dict_getitem_insert_ne indicateurs k)
    by (intros ->; apply Hk; unfold indicateurs_requis; set_solver).
  reflexivity.
Qed.

(** The required keys up to the first one that is absent. *)
Lemma premier_manquant (requis : list string)
    (indicateurs : gmap string float) :
  Forall (fun k => is_Some (indicateurs !! k)) requis \/
  exists avant ind apres,
    requis = avant ++ ind :: apres /\
    Forall (fun k => is_Some (indicateurs !! k)) avant /\
    indicateurs !! ind = None.
Proof.
  induction requis as [|r suite IH].
  - left. constructor.
  - destruct (indicateurs !! r) as [x|] eqn:Hr.
    + destruct IH as [IH|(avant & ind & apres & -> & Hav & Hnone)].
      * left. constructor; eauto.
      * right. exists (r :: avant), ind, apres.
        split; [reflexivity|]. split; [constructor; eauto|exact Hnone].
    + right. exists [], r, suite. split; [reflexivity|].
      split; [constructor|exact Hr].
Qed.

(** The first required key that is absent stops the check. *)
Lemma verifier_indicateurs_premier (avant apres : list string) (ind : string)
    (indicateurs : gmap string float) :
  Forall (fun k => is_Some (indicateurs !! k)) avant ->
  indicateurs !! ind = None ->
  verifier_indicateurs (avant ++ ind :: apres) indicateurs =
  Raise (ValueError ("L'indicateur " +:+ ind +:+ " est manquant")).
Proof.
  intros Hav Hnone. induction Hav as [|k avant Hk _ IH]; simpl.
  - unfold dict_contains.
    now rewrite bool_decide_eq_false_2 by (rewrite Hnone; intros [? ?]; done).
  - unfold dict_contains. now rewrite bool_decide_eq_true_2 by exact Hk.
Qed.

Lemma verifier_indicateurs_complet (requis : list string)
    (indicateurs : gmap string float) :
  (forall k, k ∈ requis -> is_Some (indicateurs !! k)) ->
  verifier_indicateurs requis indicateurs = Ok tt.
Proof.
  induction requis as [|r suite IH]; intros Hall; simpl; [reflexivity|].
  unfold dict_contains.
  rewrite bool_decide_eq_true_2 by (apply Hall; now left).
  apply IH. intros k Hk. apply Hall. now right.
Qed.

(** With the six required keys present every entry of [resultats] is
    graded, on the ladder and in the direction of its indicator. *)
Lemma calcul_resultats_complet (indicateurs : gmap string float)
    (v1 v2 v3 v4 v5 v6 : float) :
  indicateurs !! "taux_feminisation" = Some v1 ->
  indicateurs !! "taux_femmes_cadres" = Some v2 ->
  indicateurs !! "taux_handicap" = Some v3 ->
  indicateurs !! "ecart_salaire" = Some v4 ->
  indicateurs !! "equilibre_age" = Some v5 ->
  indicateurs !! "taux_absenteisme" = Some v6 ->
  exists g1 g2 g3 g4 g5 g6 : Grade,
    calcul_resultats indicateurs = Ok (lettre <$> carte g1 g2 g3 g4 g5 g6) /\
    attribuer_note v1 [40; 35; 30; 25]%float true = Ok (lettre g1) /\
    attribuer_note v2 [35; 30; 25; 20]%float true = Ok (lettre g2) /\
    attribuer_note v3 [6; 5; 4; 3]%float true = Ok (lettre g3) /\
    attribuer_note v4 [2; 4; 8; 12]%float false = Ok (lettre g4) /\
    attribuer_note v5 [85; 75; 65; 55]%float true = Ok (lettre g5) /\
    attribuer_note v6 [2.5; 3.5; 4.5; 5.5]%float false = Ok (lettre g6).
Proof.
  intros H1 H2 H3 H4 H5 H6. unfold calcul_resultats.
  rewrite (dict_getitem_Some _ _ _ H1), (dict_getitem_Some _ _ _ H2),
    (dict_getitem_Some _ _ _ H3), (dict_getitem_Some _ _ _ H4),
    (dict_getitem_Some _ _ _ H5), (dict_getitem_Some _ _ _ H6).
  change (dict_getitem seuils "taux_feminisation")
    with (Ok [40; 35; 30; 25]%float).
  change (dict_getitem seuils "taux_femmes_cadres")
    with (Ok [35; 30; 25; 20]%float).
  change (dict_getitem seuils "taux_handicap") with (Ok [6; 5; 4; 3]%float).
  change (dict_getitem seuils "ecart_salaire") with (Ok [2; 4; 8; 12]%float).
  change (dict_getitem seuils "equilibre_age")
    with (Ok [85; 75; 65; 55]%float).
  change (dict_getitem seuils "taux_absenteisme")
    with (Ok [2.5; 3.5; 4.5; 5.5]%float).
  cbn [mbind result_bind].
  rewrite !attribuer_note_croissant, !attribuer_note_decroissant.
  cbn [mbind result_bind].
  do 6 eexists. split; [|repeat split].
  unfold carte. now rewrite !fmap_insert, fmap_empty.
Qed.

(** A dict with an extra key is not rejected: the report is produced. *)
Lemma rapport_cle_inconnue_counterexample :
  ("taux_turnover" ∉ indicateurs_requis) /\
  seuils !! "taux_turnover" = None /\
  indicateurs_surnumeraire !! "taux_turnover" = Some 12%float /\
  (exists resultats : gmap string string,
     rapport indicateurs_surnumeraire =
     Some (Ok (Evaluation resultats 3.3333333333333335 "C"))) /\
  ~ (exists e : exn,
       rapport indicateurs_surnumeraire = Some (Raise e) /\
       exn_name e = UnknownIndicatorError).
Proof.
  split.
  { unfold indicateurs_requis. rewrite !not_elem_of_cons.
    repeat split; try discriminate. apply not_elem_of_nil. }
  split; [vm_compute; reflexivity|].
  split; [vm_compute; reflexivity|].
  split.
  - eexists. vm_compute. reflexivity.
  - intros [e [H _]]. vm_compute in H. discriminate.
Qed.

(** C6 (amended): a key outside the six fixed keys is never looked up, so
    a non-empty dict that is given one more such key is evaluated exactly
    as without it, by the report block and by the button block alike.
    What the report block rejects is a non-empty dict that lacks one of the
    six required keys: it raises [ValueError] naming the first missing key
    in the order of the required list (every key listed before it is
    present), before any grading and so without an aggregate; and when all
    six are present it produces the six grades and the aggregate. *)
Theorem rapport_cles_lues (indicateurs : gmap string float) :
  (forall (k : string) (v : float),
     k ∉ indicateurs_requis -> indicateurs <> ∅ ->
     rapport (<[k := v]> indicateurs) = rapport indicateurs /\
     evaluer (<[k := v]> indicateurs) = evaluer indicateurs) /\
  (forall k : string,
     k ∈ indicateurs_requis -> indicateurs <> ∅ ->
     indicateurs !! k = None ->
     exists (avant apres : list string) (ind : string),
       indicateurs_requis = avant ++ ind :: apres /\
       Forall (fun r => is_Some (indicateurs !! r)) avant /\
       indicateurs !! ind = None /\
       rapport indicateurs =
       Some (Raise
               (ValueError ("L'indicateur " +:+ ind +:+ " est manquant")))) /\
  ((forall k : string,
      k ∈ indicateurs_requis -> is_Some (indicateurs !! k)) ->
   exists ev : evaluation,
     rapport indicateurs = Some (Ok ev) /\
     calcul_resultats indicateurs = Ok (ev_resultats ev) /\
     size (ev_resultats ev) = 6 /\
     score_global (ev_resultats ev) = Ok (ev_score_global ev) /\
     ev_note_globale ev = chiffre_vers_note (ev_score_global ev)).
Proof.
  split; [|split].
  - intros k v Hk Hne. apply dict_bool_true in Hne.
    unfold rapport, evaluer, rapport_corps, evaluer_corps.
    rewrite dict_bool_insert, Hne.
    now rewrite verifier_indicateurs_insert, calcul_resultats_insert.
  - intros k Hin Hne Hk. apply dict_bool_true in Hne.
    destruct (premier_manquant indicateurs_requis indicateurs)
      as [Hall|(avant & ind & apres & Heq & Hav & Hnone)].
    + rewrite Forall_forall in Hall. destruct (Hall k Hin) as [x Hx].
      congruence.
    + exists avant, apres, ind.
      split; [exact Heq|]. split; [exact Hav|]. split; [exact Hnone|].
      unfold rapport, rapport_corps.
      now rewrite Hne, Heq, (verifier_indicateurs_premier _ _ _ _ Hav Hnone).
  - intros Hall.
    assert (H1 : is_Some (indicateurs !! "taux_feminisation"))
      by (apply Hall; unfold indicateurs_requis; set_solver).
    assert (H2 : is_Some (indicateurs !! "taux_femmes_cadres"))
      by (apply Hall; unfold indicateurs_requis; set_solver).
    assert (H3 : is_Some (indicateurs !! "taux_handicap"))
      by (apply Hall; unfold indicateurs_requis; set_solver).
    assert (H4 : is_Some (indicateurs !! "ecart_salaire"))
      by (apply Hall; unfold indicateurs_requis; set_solver).
    assert (H5 : is_Some (indicateurs !! "equilibre_age"))
      by (apply Hall; unfold indicateurs_requis; set_solver).
    assert (H6 : is_Some (indicateurs !! "taux_absenteisme"))
      by (apply Hall; unfold indicateurs_requis; set_solver).
    assert (Hne : dict_bool indicateurs = true).
    { apply dict_bool_true. intros ->. destruct H1 as [v1 H1].
      now rewrite lookup_empty in H1. }
    destruct H1 as [v1 H1], H2 as [v2 H2], H3 as [v3 H3], H4 as [v4 H4],
             H5 as [v5 H5], H6 as [v6 H6].
    destruct (calcul_resultats_complet _ _ _ _ _ _ _ H1 H2 H3 H4 H5 H6)
      as (g1 & g2 & g3 & g4 & g5 & g6 & Hres & _).
    destruct (int_truediv_points g1 g2 g3 g4 g5 g6) as (s & Hs & _ & _).
    rewrite <- score_global_carte in Hs.
    unfold rapport, rapport_corps.
    rewrite Hne, (verifier_indicateurs_complet _ _ Hall), Hres.
    cbn [mbind result_bind]. rewrite Hs. cbn [mbind result_bind].
    eexists. split; [reflexivity|].
    cbn [ev_resultats ev_score_global ev_note_globale].
    split; [reflexivity|]. split; [|now split].
    exact (calcul_resultats_taille _ _ Hres).
Qed.

(** * Part III: further properties of the code *)

(** ** More order facts on binary64 comparisons *)

Module FloatTotal.

Lemma SFcompare_refl (a : spec_float) :
  a <> S754_nan -> SFcompare a a = Some Eq.
Proof.
  destruct a as [[]|[]| |[] m e]; simpl; try congruence; intros _;
    rewrite ?FloatOrder.lex_opp; fold (lex e m e m);
    now rewrite FloatOrder.lex_refl.
Qed.

Lemma SFeqb_irrefl_nan (a : spec_float) :
  SFeqb a a = false -> a = S754_nan.
Proof.
  intros H. destruct a as [s|s| |s m e]; try reflexivity; exfalso;
    unfold SFeqb in H; rewrite SFcompare_refl in H; congruence.
Qed.

Lemma SFcompare_nan_l (b : spec_float) : SFcompare S754_nan b = None.
Proof. reflexivity. Qed.

Lemma SFcompare_nan_r (a : spec_float) : SFcompare a S754_nan = None.
Proof. now destruct a as [[]|[]| |[] m e]. Qed.

(** Swapping the operands reverses the comparison. *)
Lemma SFcompare_swap (a b : spec_float) :
  SFcompare b a = option_map CompOpp (SFcompare a b).
Proof.
  destruct a as [[]|[]| |[] m1 e1], b as [[]|[]| |[] m2 e2];
    simpl; try reflexivity;
    rewrite ?FloatOrder.lex_opp;
    fold (lex e1 m1 e2 m2); fold (lex e2 m2 e1 m1);
    pose proof (FloatOrder.lex_spec e1 m1 e2 m2) as H12;
    pose proof (FloatOrder.lex_spec e2 m2 e1 m1) as H21;
    destruct (lex e1 m1 e2 m2), (lex e2 m2 e1 m1);
    simpl; try reflexivity; exfalso; lia.
Qed.

(** A NaN fails every comparison, on either side. *)
Lemma nan_le (v t : float) :
  float_eq v v = false -> float_le v t = false /\ float_ge v t = false.
Proof.
  unfold float_eq, float_le, float_ge.
  rewrite FloatAxioms.eqb_spec, !leb_spec. intros H%SFeqb_irrefl_nan.
  unfold SFleb. now rewrite H, SFcompare_nan_l, SFcompare_nan_r.
Qed.

Lemma nan_lt (v t : float) :
  float_eq v v = false -> float_lt v t = false /\ float_gt v t = false.
Proof.
  unfold float_eq, float_lt, float_gt.
  rewrite FloatAxioms.eqb_spec, !ltb_spec. intros H%SFeqb_irrefl_nan.
  unfold SFltb. now rewrite H, SFcompare_nan_l, SFcompare_nan_r.
Qed.

(** [x < y] excludes [y <= x]. *)
Lemma lt_not_ge (x y : float) :
  float_lt x y = true -> float_le y x = false.
Proof.
  unfold float_lt, float_le. rewrite ltb_spec, leb_spec.
  unfold SFltb, SFleb. rewrite (SFcompare_swap (Prim2SF x) (Prim2SF y)).
  now destruct (SFcompare (Prim2SF x) (Prim2SF y)) as [[]|].
Qed.

(** [x <= y] excludes [y < x]. *)
Lemma le_not_gt (x y : float) :
  float_le x y = true -> float_lt y x = false.
Proof.
  unfold float_lt, float_le. rewrite ltb_spec, leb_spec.
  unfold SFltb, SFleb. rewrite (SFcompare_swap (Prim2SF x) (Prim2SF y)).
  now destruct (SFcompare (Prim2SF x) (Prim2SF y)) as [[]|].
Qed.

(** Two numbers that are not NaN are always comparable. *)
Lemma not_lt_ge (x y : float) :
  float_eq x x = true -> float_eq y y = true ->
  float_lt x y = false -> float_le y x = true.
Proof.
  unfold float_eq, float_lt, float_le.
  rewrite !FloatAxioms.eqb_spec, ltb_spec, leb_spec.
  unfold SFeqb, SFltb, SFleb. rewrite (SFcompare_swap (Prim2SF x) (Prim2SF y)).
  destruct (Prim2SF x) as [[]|[]| |[] m1 e1],
           (Prim2SF y) as [[]|[]| |[] m2 e2]; simpl; try congruence;
    rewrite ?FloatOrder.lex_opp; fold (lex e1 m1 e2 m2);
    now destruct (lex e1 m1 e2 m2).
Qed.

Lemma not_le_gt (x y : float) :
  float_eq x x = true -> float_eq y y = true ->
  float_le x y = false -> float_lt y x = true.
Proof.
  unfold float_eq, float_lt, float_le.
  rewrite !FloatAxioms.eqb_spec, ltb_spec, leb_spec.
  unfold SFeqb, SFltb, SFleb. rewrite (SFcompare_swap (Prim2SF x) (Prim2SF y)).
  destruct (Prim2SF x) as [[]|[]| |[] m1 e1],
           (Prim2SF y) as [[]|[]| |[] m2 e2]; simpl; try congruence;
    rewrite ?FloatOrder.lex_opp; fold (lex e1 m1 e2 m2);
    now destruct (lex e1 m1 e2 m2).
Qed.

(** [0 < x] excludes [x == 0]. *)
Lemma lt_not_eq (x y : float) :
  float_lt x y = true -> float_eq y x = false.
Proof.
  unfold float_lt, float_eq. rewrite ltb_spec, FloatAxioms.eqb_spec.
  unfold SFltb, SFeqb. rewrite (SFcompare_swap (Prim2SF x) (Prim2SF y)).
  now destruct (SFcompare (Prim2SF x) (Prim2SF y)) as [[]|].
Qed.

End FloatTotal.

(** ** Sums and differences of finite numbers are never NaN *)

Module FloatFini.

Lemma shr_1_pos (mrs : shr_record) :
  (0 <= shr_m mrs)%Z -> (0 <= shr_m (shr_1 mrs))%Z.
Proof.
  destruct mrs as [[|[p|p|]|[p|p|]] r s]; simpl; lia.
Qed.

Lemma iter_shr_1_pos (p : positive) (mrs : shr_record) :
  (0 <= shr_m mrs)%Z -> (0 <= shr_m (SpecFloat.iter_pos shr_1 p mrs))%Z.
Proof.
  revert mrs. induction p as [p IH|p IH|]; intros mrs H; simpl.
  - apply IH, IH, shr_1_pos, H.
  - apply IH, IH, H.
  - apply shr_1_pos, H.
Qed.

Lemma shr_fexp_pos (prec emax m e : Z) (l : location) :
  (0 <= m)%Z -> (0 <= shr_m (fst (shr_fexp prec emax m e l)))%Z.
Proof.
  intros H. unfold shr_fexp, shr.
  assert (H0 : (0 <= shr_m (shr_record_of_loc m l))%Z)
    by (destruct l as [|[]]; exact H).
  destruct (_ - e)%Z; simpl; [exact H0| |exact H0].
  apply iter_shr_1_pos, H0.
Qed.

Lemma round_nearest_even_pos (m : Z) (l : location) :
  (0 <= m)%Z -> (0 <= round_nearest_even m l)%Z.
Proof.
  intros H. destruct l as [|[]]; simpl; try lia.
  destruct (Z.even m); lia.
Qed.

Lemma binary_round_aux_nombre (prec emax : Z) (sx : bool) (mx ex : Z)
    (lx : location) :
  (0 <= mx)%Z -> binary_round_aux prec emax sx mx ex lx <> S754_nan.
Proof.
  intros H. unfold binary_round_aux.
  pose proof (shr_fexp_pos prec emax mx ex lx H) as H1.
  destruct (shr_fexp prec emax mx ex lx) as [mrs' e']. simpl in H1.
  pose proof (shr_fexp_pos prec emax _ e' loc_Exact
                (round_nearest_even_pos _ (loc_of_shr_record mrs') H1)) as H2.
  destruct (shr_fexp prec emax _ e' loc_Exact) as [mrs'' e'']. simpl in H2.
  destruct (shr_m mrs'') as [|m|m]; [discriminate| |lia].
  destruct (e'' <=? emax - prec)%Z; discriminate.
Qed.

Lemma binary_normalize_nombre (prec emax m e : Z) (szero : bool) :
  binary_normalize prec emax m e szero <> S754_nan.
Proof.
  destruct m as [|m|m]; simpl; [discriminate| |];
    unfold binary_round; destruct (shl_align _ _ _) as [mz ez];
    now apply binary_round_aux_nombre.
Qed.

Lemma SFadd_nombre (prec emax : Z) (x y : spec_float) :
  x <> S754_nan -> fini y -> SFadd prec emax x y <> S754_nan.
Proof.
  destruct x as [[]|[]| |sx mx ex], y as [[]|[]| |sy my ey];
    simpl; try tauto; try discriminate; intros _ _;
    apply binary_normalize_nombre.
Qed.

Lemma SFsub_nombre (prec emax : Z) (x y : spec_float) :
  x <> S754_nan -> fini y -> SFsub prec emax x y <> S754_nan.
Proof.
  destruct x as [[]|[]| |sx mx ex], y as [[]|[]| |sy my ey];
    simpl; try tauto; try discriminate; intros _ _;
    apply binary_normalize_nombre.
Qed.

Lemma nombre_spec (x : float) :
  float_eq x x = true <-> Prim2SF x <> S754_nan.
Proof.
  unfold float_eq. rewrite FloatAxioms.eqb_spec. split.
  - intros H Hn. rewrite Hn in H. discriminate.
  - intros H. unfold SFeqb. now rewrite FloatTotal.SFcompare_refl.
Qed.

Lemma est_fini_spec (x : float) : est_fini x = true -> fini (Prim2SF x).
Proof.
  unfold est_fini, float_lt. rewrite ltb_spec, abs_spec.
  change (Prim2SF infinity) with (S754_infinity false).
  now destruct (Prim2SF x) as [[]|[]| |s m e].
Qed.

Lemma add_nombre (x y : float) :
  float_eq x x = true -> est_fini y = true ->
  float_eq (x + y) (x + y) = true.
Proof.
  rewrite !nombre_spec, add_spec. intros Hx Hy%est_fini_spec.
  now apply SFadd_nombre.
Qed.

Lemma sub_nombre (x y : float) :
  float_eq x x = true -> est_fini y = true ->
  float_eq (x - y) (x - y) = true.
Proof.
  rewrite !nombre_spec, sub_spec. intros Hx Hy%est_fini_spec.
  now apply SFsub_nombre.
Qed.

Lemma abs_nombre (x : float) :
  float_eq x x = true -> float_eq (abs x) (abs x) = true.
Proof.
  rewrite !nombre_spec, abs_spec.
  now destruct (Prim2SF x) as [[]|[]| |s m e].
Qed.

End FloatFini.

(** ** Threshold lists of any length *)

(** X1: [attribuer_note] reads at most the first four thresholds.  It
    raises [IndexError], and nothing else, exactly when the list has fewer
    than four thresholds and the value passes none of them; thresholds
    beyond the fourth are never looked at. *)
Theorem attribuer_note_index (v : float) (l : list float) (b : bool) :
  (attribuer_note v l b = Raise IndexError <->
   length l < 4 /\ Forall (fun t => franchit v b t = false) l) /\
  (forall e : exn, attribuer_note v l b = Raise e -> e = IndexError) /\
  attribuer_note v l b = attribuer_note v (take 4 l) b.
Proof.
  destruct b; destruct l as [|t0 [|t1 [|t2 [|t3 rest]]]];
    unfold attribuer_note, franchit; cbn;
    rewrite ?Forall_cons, ?Forall_nil;
    repeat match goal with
           | |- context [if ?c then _ else _] => destruct c eqn:?
           end;
    (split;
     [split;
      [intros Hr; first [discriminate Hr | split; [lia|tauto]]
      |intros [Hlen H];
       first [reflexivity
             |exfalso; lia
             |exfalso;
              repeat match goal with
                     | H : _ /\ _ |- _ => destruct H
                     end; congruence]]
     |split; [intros e He; congruence|reflexivity]]).
Qed.

(** ** Values that are not numbers *)

(** X2: a NaN value fails every comparison, so it is graded E on any
    four-threshold ladder in either direction, and a NaN score is
    converted to E; NaN is never rejected. *)
Theorem attribuer_note_non_nombre (v t0 t1 t2 t3 : float) (b : bool) :
  float_eq v v = false ->
  attribuer_note v [t0; t1; t2; t3] b = Ok "E" /\
  chiffre_vers_note v = "E".
Proof.
  intros Hnan. split.
  - destruct b.
    + rewrite attribuer_note_croissant.
      now rewrite !(proj2 (FloatTotal.nan_le v _ Hnan)).
    + rewrite attribuer_note_decroissant.
      now rewrite !(proj1 (FloatTotal.nan_le v _ Hnan)).
  - rewrite chiffre_vers_note_grade.
    now rewrite !(proj2 (FloatTotal.nan_le v _ Hnan)).
Qed.

Lemma attribuer_note_non_nombre_witness :
  attribuer_note nan [40; 35; 30; 25]%float true = Ok "E" /\
  chiffre_vers_note nan = "E".
Proof. apply (attribuer_note_non_nombre nan 40 35 30 25 true). reflexivity. Defined.

(** ** The lower-is-better ladder *)

(** X3: without [ordre_croissant] the grade follows the value downwards:
    if [v1 <= v2], the grade of [v1] is at least as good as the grade of
    [v2], on any four thresholds. *)
Theorem attribuer_note_decroissant_monotone (t0 t1 t2 t3 v1 v2 : float) :
  float_le v1 v2 = true ->
  exists g1 g2,
    attribuer_note v1 [t0; t1; t2; t3] false = Ok (lettre g1) /\
    attribuer_note v2 [t0; t1; t2; t3] false = Ok (lettre g2) /\
    au_moins g2 g1.
Proof.
  intros Hv. rewrite !attribuer_note_decroissant.
  do 2 eexists. split; [reflexivity|]. split; [reflexivity|].
  apply grade_echelle_mono; intros Ht;
    exact (FloatOrder.le_trans _ _ _ Hv Ht).
Qed.

Lemma attribuer_note_decroissant_monotone_witness :
  exists g1 g2,
    attribuer_note 3 [2; 4; 8; 12]%float false = Ok (lettre g1) /\
    attribuer_note 9 [2; 4; 8; 12]%float false = Ok (lettre g2) /\
    au_moins g2 g1.
Proof.
  apply (attribuer_note_decroissant_monotone 2 4 8 12 3 9). reflexivity.
Defined.

(** ** The global grade as a function of the grades *)

Lemma rang_points (g : Grade) : points g = (Z.of_nat (rang g) + 1)%Z.
Proof. now destruct g. Qed.

Lemma au_moins_points (g h : Grade) :
  au_moins g h <-> (points g <= points h)%Z.
Proof. unfold au_moins. rewrite !rang_points. lia. Qed.

Lemma elem_of_6_30 (z : Z) :
  (6 <= z <= 30)%Z -> In z (Z.of_nat <$> seq 6 25).
Proof.
  intros Hz. apply list_elem_of_In, list_elem_of_fmap.
  exists (Z.to_nat z). split; [lia|]. apply elem_of_seq. lia.
Qed.

Lemma palier_conforme_ok (z : Z) :
  (6 <= z <= 30)%Z -> palier_conforme z = true.
Proof.
  intros Hz.
  assert (Hall : forallb palier_conforme (Z.of_nat <$> seq 6 25) = true)
    by (vm_compute; reflexivity).
  rewrite forallb_forall in Hall. now apply Hall, elem_of_6_30.
Qed.

Lemma sixieme_croissant_ok (z z' : Z) :
  (6 <= z <= z')%Z -> (z' <= 30)%Z -> sixieme_croissant z z' = true.
Proof.
  intros Hz Hz'.
  assert (Hall : forallb (fun a => forallb (fun b =>
                    implb (a <=? b)%Z (sixieme_croissant a b))
                    (Z.of_nat <$> seq 6 25)) (Z.of_nat <$> seq 6 25) = true)
    by (vm_compute; reflexivity).
  rewrite forallb_forall in Hall.
  specialize (Hall z (elem_of_6_30 z ltac:(lia))).
  rewrite forallb_forall in Hall.
  specialize (Hall z' (elem_of_6_30 z' ltac:(lia))).
  destruct (Z.leb_spec z z'); [exact Hall|lia].
Qed.

Lemma total_points_bornes (g1 g2 g3 g4 g5 g6 : Grade) :
  (6 <= total_points g1 g2 g3 g4 g5 g6 <= 30)%Z.
Proof.
  unfold total_points.
  pose proof (points_bornes g1). pose proof (points_bornes g2).
  pose proof (points_bornes g3). pose proof (points_bornes g4).
  pose proof (points_bornes g5). pose proof (points_bornes g6). lia.
Qed.

(** The score and the global grade of a score card, from its total. *)
Lemma score_global_palier (g1 g2 g3 g4 g5 g6 : Grade) :
  exists s : float,
    score_global (lettre <$> carte g1 g2 g3 g4 g5 g6) = Ok s /\
    int_truediv (total_points g1 g2 g3 g4 g5 g6) 6 = Ok s /\
    chiffre_vers_note s = lettre (palier (total_points g1 g2 g3 g4 g5 g6)).
Proof.
  rewrite score_global_carte. fold (total_points g1 g2 g3 g4 g5 g6).
  pose proof (palier_conforme_ok _ (total_points_bornes g1 g2 g3 g4 g5 g6))
    as Hp.
  unfold palier_conforme in Hp.
  destruct (int_truediv (total_points g1 g2 g3 g4 g5 g6) 6) as [s|e];
    [|discriminate].
  exists s. split; [reflexivity|]. split; [reflexivity|].
  now apply String.eqb_eq.
Qed.

Lemma palier_minore (lo : Grade) (t : Z) :
  (6 * points lo <= t)%Z -> au_moins lo (palier t).
Proof.
  unfold au_moins, palier. intros H.
  repeat match goal with
         | |- context [(?a <=? ?b)%Z] => destruct (Z.leb_spec a b)
         end; destruct lo; simpl in *; lia.
Qed.

Lemma palier_majore (hi : Grade) (t : Z) :
  (t <= 6 * points hi)%Z -> au_moins (palier t) hi.
Proof.
  unfold au_moins, palier. intros H.
  repeat match goal with
         | |- context [(?a <=? ?b)%Z] => destruct (Z.leb_spec a b)
         end; destruct hi; simpl in *; lia.
Qed.

Lemma palier_croissant (t t' : Z) :
  (t <= t')%Z -> au_moins (palier t) (palier t').
Proof.
  unfold au_moins, palier. intros H.
  repeat match goal with
         | |- context [(?a <=? ?b)%Z] => destruct (Z.leb_spec a b)
         end; simpl; lia.
Qed.

(** X4: converting a grade to its number and that number back gives the
    grade again, and a score card that gives the same grade to all six
    indicators has exactly that grade as its global grade. *)
Theorem chiffre_vers_note_vers_chiffre (g : Grade) :
  chiffre_vers_note (float_of_int (note_vers_chiffre (lettre g))) = lettre g
  /\ exists s : float,
       score_global (lettre <$> carte g g g g g g) = Ok s /\
       s = float_of_int (note_vers_chiffre (lettre g)) /\
       chiffre_vers_note s = lettre g.
Proof.
  split.
  - destruct g; vm_compute; reflexivity.
  - rewrite score_global_carte.
    destruct g; eexists; (split; [vm_compute; reflexivity|]);
      split; vm_compute; reflexivity.
Qed.

(** X5: the global grade depends only on the total of the six five-point
    values: 27 points or more give A, 21 to 26 give B, 15 to 20 give C,
    9 to 14 give D, and 8 or fewer give E. *)
Theorem note_globale_palier (g1 g2 g3 g4 g5 g6 : Grade) :
  exists s : float,
    score_global (lettre <$> carte g1 g2 g3 g4 g5 g6) = Ok s /\
    chiffre_vers_note s = lettre (palier (total_points g1 g2 g3 g4 g5 g6)).
Proof.
  destruct (score_global_palier g1 g2 g3 g4 g5 g6) as (s & Hs & _ & Hg).
  exists s. split; [exact Hs|exact Hg].
Qed.

(** X6: the global grade is never better than the best of the six grades
    nor worse than the worst of them. *)
Theorem note_globale_encadree (g1 g2 g3 g4 g5 g6 lo hi : Grade) :
  Forall (au_moins lo) [g1; g2; g3; g4; g5; g6] ->
  Forall (fun g => au_moins g hi) [g1; g2; g3; g4; g5; g6] ->
  exists (s : float) (g : Grade),
    score_global (lettre <$> carte g1 g2 g3 g4 g5 g6) = Ok s /\
    chiffre_vers_note s = lettre g /\
    au_moins lo g /\ au_moins g hi.
Proof.
  intros Hlo Hhi.
  destruct (score_global_palier g1 g2 g3 g4 g5 g6) as (s & Hs & _ & Hg).
  exists s, (palier (total_points g1 g2 g3 g4 g5 g6)).
  split; [exact Hs|]. split; [exact Hg|].
  rewrite !Forall_cons in Hlo, Hhi. rewrite !au_moins_points in Hlo, Hhi.
  split.
  - apply palier_minore. unfold total_points. lia.
  - apply palier_majore. unfold total_points. lia.
Qed.

Lemma note_globale_encadree_witness :
  exists (s : float) (g : Grade),
    score_global (lettre <$> carte A B C D D C) = Ok s /\
    chiffre_vers_note s = lettre g /\
    au_moins D g /\ au_moins g A.
Proof.
  apply (note_globale_encadree A B C D D C D A);
    repeat constructor; unfold au_moins; simpl; lia.
Defined.

(** X7: raising the grade of any indicator never lowers the global score
    nor the global grade. *)
Theorem note_globale_croissante (g1 g2 g3 g4 g5 g6 h1 h2 h3 h4 h5 h6 : Grade) :
  Forall2 au_moins [g1; g2; g3; g4; g5; g6] [h1; h2; h3; h4; h5; h6] ->
  exists (s s' : float) (g h : Grade),
    score_global (lettre <$> carte g1 g2 g3 g4 g5 g6) = Ok s /\
    score_global (lettre <$> carte h1 h2 h3 h4 h5 h6) = Ok s' /\
    float_le s s' = true /\
    chiffre_vers_note s = lettre g /\
    chiffre_vers_note s' = lettre h /\
    au_moins g h.
Proof.
  intros H.
  repeat match goal with
         | H : Forall2 _ (_ :: _) (_ :: _) |- _ =>
             apply Forall2_cons in H as [?%au_moins_points H]
         end.
  destruct (score_global_palier g1 g2 g3 g4 g5 g6) as (s & Hs & Hd & Hg).
  destruct (score_global_palier h1 h2 h3 h4 h5 h6) as (s' & Hs' & Hd' & Hh).
  exists s, s', (palier (total_points g1 g2 g3 g4 g5 g6)),
    (palier (total_points h1 h2 h3 h4 h5 h6)).
  assert (Ht : (total_points g1 g2 g3 g4 g5 g6
                <= total_points h1 h2 h3 h4 h5 h6)%Z)
    by (unfold total_points; lia).
  repeat (split; [assumption|]).
  split.
  - pose proof (total_points_bornes g1 g2 g3 g4 g5 g6).
    pose proof (total_points_bornes h1 h2 h3 h4 h5 h6).
    assert (Hc : sixieme_croissant (total_points g1 g2 g3 g4 g5 g6)
                   (total_points h1 h2 h3 h4 h5 h6) = true)
      by (apply sixieme_croissant_ok; lia).
    unfold sixieme_croissant in Hc.
    rewrite Hd, Hd' in Hc. exact Hc.
  - split; [assumption|]. split; [assumption|]. now apply palier_croissant.
Qed.

Lemma note_globale_croissante_witness :
  exists (s s' : float) (g h : Grade),
    score_global (lettre <$> carte C C D E B C) = Ok s /\
    score_global (lettre <$> carte B C D D A C) = Ok s' /\
    float_le s s' = true /\
    chiffre_vers_note s = lettre g /\
    chiffre_vers_note s' = lettre h /\
    au_moins g h.
Proof.
  apply (note_globale_croissante C C D E B C B C D D A C);
    repeat constructor; unfold au_moins; simpl; lia.
Defined.

(** ** The two evaluation blocks on incomplete and complete input *)

Lemma dict_getitem_None {X} (d : gmap string X) (k : string) :
  d !! k = None -> dict_getitem d k = Raise (KeyError k).
Proof. intros H. unfold dict_getitem. now rewrite H. Qed.

(** Rewrites the reads of [calcul_resultats] whose outcome is known. *)
Ltac lire_indicateurs :=
  unfold calcul_resultats;
  repeat match goal with
         | H : ?m !! ?k = Some ?v |- context [dict_getitem ?m ?k] =>
             rewrite (dict_getitem_Some m k v H)
         | H : ?m !! ?k = None |- context [dict_getitem ?m ?k] =>
             rewrite (dict_getitem_None m k H)
         end;
  change (dict_getitem seuils "taux_feminisation")
    with (Ok [40; 35; 30; 25]%float);
  change (dict_getitem seuils "taux_femmes_cadres")
    with (Ok [35; 30; 25; 20]%float);
  change (dict_getitem seuils "taux_handicap") with (Ok [6; 5; 4; 3]%float);
  change (dict_getitem seuils "ecart_salaire") with (Ok [2; 4; 8; 12]%float);
  change (dict_getitem seuils "equilibre_age")
    with (Ok [85; 75; 65; 55]%float);
  change (dict_getitem seuils "taux_absenteisme")
    with (Ok [2.5; 3.5; 4.5; 5.5]%float);
  cbn [mbind result_bind];
  rewrite ?attribuer_note_croissant, ?attribuer_note_decroissant;
  cbn [mbind result_bind].

Lemma calcul_resultats_premier (avant apres : list string) (ind : string)
    (indicateurs : gmap string float) :
  indicateurs_requis = avant ++ ind :: apres ->
  Forall (fun k => is_Some (indicateurs !! k)) avant ->
  indicateurs !! ind = None ->
  calcul_resultats indicateurs = Raise (KeyError ind).
Proof.
  intros Heq Hav Hnone. unfold indicateurs_requis in Heq.
  destruct avant as [|? [|? [|? [|? [|? [|? avant]]]]]];
    simplify_eq/=;
    repeat match goal with
           | H : Forall _ (_ :: _) |- _ => apply Forall_cons in H as [[? ?] H]
           end;
    try (lire_indicateurs; reflexivity).
  destruct avant; discriminate.
Qed.

Lemma calcul_resultats_carte (indicateurs : gmap string float)
    (resultats : gmap string string) :
  calcul_resultats indicateurs = Ok resultats ->
  Forall (fun k => is_Some (indicateurs !! k)) indicateurs_requis /\
  exists g1 g2 g3 g4 g5 g6 : Grade,
    resultats = lettre <$> carte g1 g2 g3 g4 g5 g6.
Proof.
  intros Hr.
  destruct (premier_manquant indicateurs_requis indicateurs)
    as [Hall|(avant & ind & apres & Heq & Hav & Hnone)].
  - split; [exact Hall|].
    unfold indicateurs_requis in Hall.
    repeat match goal with
           | H : Forall _ (_ :: _) |- _ => apply Forall_cons in H as [[? ?] H]
           end.
    edestruct calcul_resultats_complet
      as (g1 & g2 & g3 & g4 & g5 & g6 & Hc & _); try eassumption.
    exists g1, g2, g3, g4, g5, g6. congruence.
  - rewrite (calcul_resultats_premier _ _ _ _ Heq Hav Hnone) in Hr.
    discriminate.
Qed.

(** X8: when the report block succeeds, each of the six grades it stored
    is one of the letters A to E, each numeric note lies between 1 and 5
    (the fallback 0 of [note_vers_chiffre] is never used), the global score
    lies in [1.0, 5.0] and the global grade is again one of the five
    letters. *)
Theorem rapport_reussi (indicateurs : gmap string float) (ev : evaluation) :
  rapport indicateurs = Some (Ok ev) ->
  size (ev_resultats ev) = 6 /\
  map_Forall (fun _ note => exists g, note = lettre g) (ev_resultats ev) /\
  map_Forall (fun _ n => (1 <= n <= 5)%Z)
             (notes_numeriques (ev_resultats ev)) /\
  float_le 1 (ev_score_global ev) = true /\
  float_le (ev_score_global ev) 5 = true /\
  exists g, ev_note_globale ev = lettre g.
Proof.
  unfold rapport, rapport_corps. intros H.
  destruct (dict_bool indicateurs); [|discriminate].
  apply (inj Some) in H.
  destruct (verifier_indicateurs indicateurs_requis indicateurs) as [[]|];
    cbn [mbind result_bind] in H; [|discriminate].
  destruct (calcul_resultats indicateurs) as [r|] eqn:Hr;
    cbn [mbind result_bind] in H; [|discriminate].
  pose proof (calcul_resultats_taille _ _ Hr) as Hsize.
  apply calcul_resultats_carte in Hr
    as [_ (g1 & g2 & g3 & g4 & g5 & g6 & ->)].
  destruct (score_global_palier g1 g2 g3 g4 g5 g6) as (s & Hs & Hd & Hg).
  rewrite Hs in H. cbn [mbind result_bind] in H. injection H as <-.
  cbn [ev_resultats ev_score_global ev_note_globale].
  split; [exact Hsize|].
  split.
  { intros k note Hk. rewrite lookup_fmap in Hk.
    destruct (carte g1 g2 g3 g4 g5 g6 !! k) as [g|]; [|discriminate].
    injection Hk as <-. now exists g. }
  split.
  { rewrite notes_numeriques_lettre. intros k n Hk.
    rewrite lookup_fmap in Hk.
    destruct (carte g1 g2 g3 g4 g5 g6 !! k) as [g|]; [|discriminate].
    injection Hk as <-. apply points_bornes. }
  destruct (int_truediv_points g1 g2 g3 g4 g5 g6) as (s' & Hs' & Hlo & Hhi).
  fold (total_points g1 g2 g3 g4 g5 g6) in Hs'.
  assert (s' = s) as -> by congruence.
  split; [exact Hlo|]. split; [exact Hhi|]. eauto.
Qed.

Lemma rapport_reussi_witness :
  exists ev : evaluation,
    rapport indicateurs_defaut = Some (Ok ev) /\
    float_le 1 (ev_score_global ev) = true /\
    float_le (ev_score_global ev) 5 = true.
Proof.
  assert (H : rapport indicateurs_defaut =
              Some (Ok (Evaluation (lettre <$> carte C C B C B C)
                                   3.3333333333333335 "C")))
    by (vm_compute; reflexivity).
  eexists. split; [exact H|].
  destruct (rapport_reussi _ _ H) as (_ & _ & _ & Hlo & Hhi & _).
  split; assumption.
Defined.

(** X9: on a non-empty dict that lacks a required key, the two blocks fail
    differently.  The button block has no check and raises [KeyError] for
    the first missing key; the report block raises [ValueError] with the
    message naming that same key.  Neither computes an aggregate. *)
Theorem blocs_cle_manquante (indicateurs : gmap string float)
    (avant apres : list string) (ind : string) :
  indicateurs_requis = avant ++ ind :: apres ->
  Forall (fun k => is_Some (indicateurs !! k)) avant ->
  indicateurs !! ind = None ->
  indicateurs <> ∅ ->
  evaluer indicateurs = Some (Raise (KeyError ind)) /\
  rapport indicateurs =
  Some (Raise (ValueError ("L'indicateur " +:+ ind +:+ " est manquant"))).
Proof.
  intros Heq Hav Hnone Hne. apply dict_bool_true in Hne.
  unfold evaluer, rapport, evaluer_corps, rapport_corps. rewrite Hne.
  rewrite (calcul_resultats_premier _ _ _ _ Heq Hav Hnone).
  rewrite Heq, (verifier_indicateurs_premier _ _ _ _ Hav Hnone).
  split; reflexivity.
Qed.

Lemma blocs_cle_manquante_witness :
  evaluer (<["taux_feminisation" := 30%float]> ∅) =
  Some (Raise (KeyError "taux_femmes_cadres")) /\
  rapport (<["taux_feminisation" := 30%float]> ∅) =
  Some (Raise (ValueError "L'indicateur taux_femmes_cadres est manquant")).
Proof.
  apply (blocs_cle_manquante (<["taux_feminisation" := 30%float]> ∅)
           ["taux_feminisation"]
           ["taux_handicap"; "ecart_salaire"; "equilibre_age";
            "taux_absenteisme"]
           "taux_femmes_cadres").
  - reflexivity.
  - repeat constructor. vm_compute. eauto.
  - vm_compute. reflexivity.
  - apply insert_non_empty.
Defined.

(** X10: the two blocks succeed on the same inputs and then produce the
    same grades, score and global grade. *)
Theorem rapport_evaluer (indicateurs : gmap string float) (ev : evaluation) :
  rapport indicateurs = Some (Ok ev) <-> evaluer indicateurs = Some (Ok ev).
Proof.
  unfold rapport, evaluer, rapport_corps, evaluer_corps.
  destruct (dict_bool indicateurs); [|tauto].
  destruct (premier_manquant indicateurs_requis indicateurs)
    as [Hall|(avant & ind & apres & Heq & Hav & Hnone)].
  - rewrite (verifier_indicateurs_complet indicateurs_requis indicateurs)
      by (intros k Hk; rewrite Forall_forall in Hall; now apply Hall).
    reflexivity.
  - rewrite (calcul_resultats_premier _ _ _ _ Heq Hav Hnone).
    rewrite Heq, (verifier_indicateurs_premier _ _ _ _ Hav Hnone).
    split; discriminate.
Qed.

(** ** The converter: what an accepted sheet looks like *)

Lemma iloc_valeur_Some (df : dataframe) (i : nat) (c : cellule) :
  iloc_valeur df i = Ok c <-> df_valeur df !! i = Some c.
Proof.
  unfold iloc_valeur, list_getitem.
  destruct (df_valeur df !! i); split; congruence.
Qed.

Lemma float_truediv_Ok (x y q : float) :
  float_truediv x y = Ok q <-> float_eq y 0 = false /\ q = (x / y)%float.
Proof.
  unfold float_truediv. destruct (float_eq y 0); split.
  - discriminate.
  - now intros [? _].
  - intros [= <-]. now split.
  - now intros [_ ->].
Qed.

(** One step through the body of [convert_data] when it is known to have
    returned. *)
Ltac avancer H :=
  match type of H with
  | mbind _ (iloc_valeur ?df ?i) = Ok _ =>
      let c := fresh "c" in
      let Hc := fresh "Hc" in
      destruct (iloc_valeur df i) as [c|] eqn:Hc;
      cbn [mbind result_bind] in H; [|discriminate H];
      apply iloc_valeur_Some in Hc
  | mbind _ (py_float ?py ?c) = Ok _ =>
      let x := fresh "x" in
      let Hx := fresh "Hx" in
      destruct (py_float py c) as [x|] eqn:Hx;
      cbn [mbind result_bind] in H; [|discriminate H]
  | mbind _ (py_int ?py ?c) = Ok _ =>
      let x := fresh "n" in
      let Hx := fresh "Hn" in
      destruct (py_int py c) as [x|] eqn:Hx;
      cbn [mbind result_bind] in H; [|discriminate H]
  | mbind _ (float_truediv ?a ?b) = Ok _ =>
      let q := fresh "q" in
      let Hq := fresh "Hq" in
      destruct (float_truediv a b) as [q|] eqn:Hq;
      cbn [mbind result_bind] in H; [|discriminate H];
      apply float_truediv_Ok in Hq as [? ->]
  | mbind _ (mbind _ (float_truediv ?a ?b)) = Ok _ =>
      let q := fresh "q" in
      let Hq := fresh "Hq" in
      destruct (float_truediv a b) as [q|] eqn:Hq;
      cbn [mbind result_bind] in H; [|discriminate H];
      apply float_truediv_Ok in Hq as [? ->]
  | mbind _ (if ?c then _ else _) = Ok _ =>
      let Hc := fresh "Hc" in
      destruct c eqn:Hc; cbn [mbind result_bind] in H
  | (if ?c then _ else _) = Ok _ =>
      let Hc := fresh "Hc" in
      destruct c eqn:Hc; [discriminate H|]
  end.

Lemma required_fields_presents (colonnes : list string) :
  forallb (fun field => bool_decide (field ∈ colonnes)) required_fields = true
  <-> Forall (fun field => field ∈ colonnes) required_fields.
Proof.
  unfold required_fields. cbn [forallb].
  rewrite !Forall_cons, Forall_nil, !andb_true_iff, !bool_decide_eq_true.
  tauto.
Qed.

(** Everything [convert_data] has read and checked when it returns, and
    what it returns. *)
Lemma convert_data_corps_Ok (py : builtins) (annee_courante : Z)
    (df : dataframe) (sortie : list (string * cellule)) :
  convert_data_corps py annee_courante df = Ok sortie ->
  exists (c0 c1 c2 c3 c4 c5 c6 c7 c8 c9 c10 c11 c12 c13 : cellule)
         (annee : Z)
         (e nf nc nfc nh jt ja a1 a2 a3 sh sf : float),
    Forall2 (fun i c => df_valeur df !! i = Some c) (seq 0 14)
      [c0; c1; c2; c3; c4; c5; c6; c7; c8; c9; c10; c11; c12; c13] /\
    Forall (fun field => field ∈ df_columns df) required_fields /\
    py_str py c0 <> "" /\
    py_int py c1 = Ok annee /\ (2000 <= annee <= annee_courante)%Z /\
    Forall2 (fun c x => py_float py c = Ok x)
      [c2; c3; c4; c5; c6; c7; c8; c9; c10; c11; c12; c13]
      [e; nf; nc; nfc; nh; jt; ja; a1; a2; a3; sh; sf] /\
    float_le e 0 = false /\
    float_lt nf 0 = false /\ float_gt nf e = false /\
    float_lt nc 0 = false /\ float_gt nc e = false /\
    float_lt nfc 0 = false /\ float_gt nfc nc = false /\
    float_lt nh 0 = false /\ float_gt nh e = false /\
    float_le jt 0 = false /\ float_lt ja 0 = false /\
    float_gt (abs (a1 + a2 + a3 - e)) 1 = false /\
    float_le sh 0 = false /\ float_le sf 0 = false /\
    sortie =
      [("nom_entreprise", CStr (py_str py c0));
       ("annee", CInt annee);
       ("taux_feminisation", CFloat (nf / e * 100));
       ("taux_femmes_cadres",
          if float_gt nc 0 then CFloat (nfc / nc * 100) else CInt 0);
       ("taux_handicap", CFloat (nh / e * 100));
       ("ecart_salaire", CFloat ((sh - sf) / sh * 100));
       ("moins_30_ans", CFloat (a1 / e * 100));
       ("entre_30_50_ans", CFloat (a2 / e * 100));
       ("plus_50_ans", CFloat (a3 / e * 100));
       ("taux_absenteisme", CFloat (ja / jt * 100))].
Proof.
  unfold convert_data_corps. intros H. cbv zeta in H.
  destruct (forallb _ required_fields) eqn:Hcols;
    cbn [negb] in H; [|discriminate H].
  apply required_fields_presents in Hcols.
  repeat avancer H;
    injection H as <-;
    repeat match goal with
           | H : (_ || _) = false |- _ => apply orb_false_elim in H as [? ?]
           | H : String.eqb _ _ = false |- _ => apply String.eqb_neq in H
           end;
    do 27 eexists;
    (split; [repeat constructor; eassumption|]);
    (split; [exact Hcols|]);
    (split; [eassumption|]);
    (split; [eassumption|]);
    (split; [lia|]);
    (split; [repeat constructor; eassumption|]);
    do 14 (split; [eassumption|]);
    match goal with
    | H : float_gt _ 0 = _ |- _ => rewrite H
    end; reflexivity.
Qed.

Lemma figure_unique (py : builtins) (df : dataframe) (i : nat) (c : cellule)
    (x y : float) :
  figure py df i x -> df_valeur df !! i = Some c -> py_float py c = Ok y ->
  x = y.
Proof. intros (c' & Hc' & Hx) Hc Hy. congruence. Qed.

(** X11: a sheet that [convert_data] accepts and whose twelve figures are
    ordinary numbers (none is NaN) has a year between 2000 and the current
    year, a positive headcount, numbers of women, managers and disabled
    employees between 0 and the headcount, women managers between 0 and the
    number of managers, positive days worked, non-negative days of absence
    and positive mean salaries.  The check on the age brackets did not
    fire, and when the headcount and the three brackets are finite this
    means that their total is within 1 of the headcount (with infinite
    figures the difference can be NaN, which the check lets through). *)
Theorem convert_data_plages (py : builtins) (annee_courante : Z)
    (df : dataframe) (sortie : list (string * cellule))
    (e nf nc nfc nh jt ja a1 a2 a3 sh sf : float) :
  Forall2 (figure py df) (seq 2 12)
    [e; nf; nc; nfc; nh; jt; ja; a1; a2; a3; sh; sf] ->
  Forall (fun x => float_eq x x = true)
    [e; nf; nc; nfc; nh; jt; ja; a1; a2; a3; sh; sf] ->
  convert_data py annee_courante df = Some sortie ->
  (exists c1 annee,
     df_valeur df !! 1 = Some c1 /\ py_int py c1 = Ok annee /\
     (2000 <= annee <= annee_courante)%Z) /\
  float_lt 0 e = true /\
  float_le 0 nf = true /\ float_le nf e = true /\
  float_le 0 nc = true /\ float_le nc e = true /\
  float_le 0 nfc = true /\ float_le nfc nc = true /\
  float_le 0 nh = true /\ float_le nh e = true /\
  float_lt 0 jt = true /\ float_le 0 ja = true /\
  float_gt (abs (a1 + a2 + a3 - e)) 1 = false /\
  (Forall (fun x => est_fini x = true) [e; a1; a2; a3] ->
   float_le (abs (a1 + a2 + a3 - e)) 1 = true) /\
  float_lt 0 sh = true /\ float_lt 0 sf = true.
Proof.
  intros Hfig Hnum Hconv. unfold convert_data in Hconv.
  destruct (convert_data_corps py annee_courante df) as [s|] eqn:Hc;
    [|discriminate Hconv].
  apply convert_data_corps_Ok in Hc
    as (c0 & c1 & c2 & c3 & c4 & c5 & c6 & c7 & c8 & c9 & c10 & c11 & c12
        & c13 & annee & e' & nf' & nc' & nfc' & nh' & jt' & ja' & a1' & a2'
        & a3' & sh' & sf' & Hrows & _ & _ & Han & Hy & Hfl & H).
  cbn [seq] in Hrows, Hfig.
  repeat match goal with
         | H : Forall2 _ (_ :: _) (_ :: _) |- _ =>
             apply Forall2_cons in H as [? H]
         | H : Forall _ (_ :: _) |- _ => apply Forall_cons in H as [? H]
         end.
  assert (e = e') as <- by eauto using figure_unique.
  assert (nf = nf') as <- by eauto using figure_unique.
  assert (nc = nc') as <- by eauto using figure_unique.
  assert (nfc = nfc') as <- by eauto using figure_unique.
  assert (nh = nh') as <- by eauto using figure_unique.
  assert (jt = jt') as <- by eauto using figure_unique.
  assert (ja = ja') as <- by eauto using figure_unique.
  assert (a1 = a1') as <- by eauto using figure_unique.
  assert (a2 = a2') as <- by eauto using figure_unique.
  assert (a3 = a3') as <- by eauto using figure_unique.
  assert (sh = sh') as <- by eauto using figure_unique.
  assert (sf = sf') as <- by eauto using figure_unique.
  destruct H as (He & Hnf0 & Hnfe & Hnc0 & Hnce & Hnfc0 & Hnfcnc & Hnh0
                 & Hnhe & Hjt & Hja & Hage & Hsh & Hsf & _).
  assert (Hzero : float_eq 0 0 = true) by reflexivity.
  assert (Hfin : Forall (fun x => est_fini x = true) [e; a1; a2; a3] ->
                 float_le (abs (a1 + a2 + a3 - e)) 1 = true).
  { intros Hf.
    apply Forall_cons in Hf as [He' Hf]. apply Forall_cons in Hf as [_ Hf].
    apply Forall_cons in Hf as [Ha2 Hf]. apply Forall_cons in Hf as [Ha3 _].
    apply FloatTotal.not_lt_ge; [reflexivity| |exact Hage].
    apply FloatFini.abs_nombre, FloatFini.sub_nombre; [|exact He'].
    apply FloatFini.add_nombre; [|exact Ha3].
    apply FloatFini.add_nombre; [assumption|exact Ha2]. }
  split; [exists c1, annee; auto|].
  do 11 (split; [first [apply FloatTotal.not_le_gt; assumption
                       |apply FloatTotal.not_lt_ge; assumption]|]).
  split; [exact Hage|]. split; [exact Hfin|].
  split; apply FloatTotal.not_le_gt; assumption.
Qed.

Lemma convert_data_plages_witness :
  float_lt 0 200 = true /\ float_le 80 200 = true /\
  float_le 20 50 = true /\
  float_le (abs (40 + 100 + 60 - 200)) 1 = true /\
  float_lt 0 3000 = true.
Proof.
  assert (H : exists sortie,
             convert_data builtins_sans_texte 2026 bilan_exemple
             = Some sortie) by (eexists; vm_compute; reflexivity).
  destruct H as [sortie H].
  destruct (convert_data_plages builtins_sans_texte 2026 bilan_exemple sortie
              200 80 50 20 10 44000 1800 40 100 60 3200 3000)
    as (_ & He & _ & Hnf & _ & _ & _ & Hnfc & _ & _ & _ & _ & _ & Hfin & _
        & Hsf).
  - repeat constructor; eexists; (split; [reflexivity|vm_compute; reflexivity]).
  - repeat constructor.
  - exact H.
  - split; [exact He|]. split; [exact Hnf|]. split; [exact Hnfc|].
    split; [|exact Hsf]. apply Hfin. repeat constructor.
Defined.

(** ** The converter: what it never raises, what it lets through *)

Lemma iloc_valeur_exn (df : dataframe) (i : nat) (err : exn) :
  iloc_valeur df i = Raise err -> err = IndexError.
Proof.
  unfold iloc_valeur, list_getitem. destruct (df_valeur df !! i); congruence.
Qed.

Lemma float_truediv_exn (x y : float) (err : exn) :
  float_truediv x y = Raise err -> float_eq y 0 = true.
Proof. unfold float_truediv. now destruct (float_eq y 0). Qed.

(** A divisor that passed its check is not zero. *)
Ltac diviseur_non_nul Hz :=
  repeat match goal with
         | H : (_ || _) = false |- _ => apply orb_false_elim in H as [? ?]
         end;
  first [apply FloatOrder.eq_le in Hz; unfold float_le in *; congruence
        |match goal with
         | H : float_gt ?b 0 = true |- _ =>
             apply (FloatTotal.lt_not_eq 0 b) in H; congruence
         end].

(** One step through the body of [convert_data] when it is supposed to
    have raised [ZeroDivisionError]. *)
Ltac avancer_zde H Hpy :=
  match type of H with
  | mbind _ (iloc_valeur ?df ?i) = Raise _ =>
      let c := fresh "c" in
      let Hc := fresh "Hc" in
      destruct (iloc_valeur df i) as [c|] eqn:Hc;
      cbn [mbind result_bind] in H;
      [|apply iloc_valeur_exn in Hc; congruence]
  | mbind _ (py_float ?py ?c) = Raise _ =>
      let x := fresh "x" in
      let Hx := fresh "Hx" in
      destruct (py_float py c) as [x|] eqn:Hx;
      cbn [mbind result_bind] in H;
      [|injection H as ->; exact (proj1 Hpy c Hx)]
  | mbind _ (py_int ?py ?c) = Raise _ =>
      let x := fresh "n" in
      let Hx := fresh "Hn" in
      destruct (py_int py c) as [x|] eqn:Hx;
      cbn [mbind result_bind] in H;
      [|injection H as ->; exact (proj2 Hpy c Hx)]
  | mbind _ (mbind _ (float_truediv ?a ?b)) = Raise _ =>
      let q := fresh "q" in
      let Hq := fresh "Hq" in
      destruct (float_truediv a b) as [q|] eqn:Hq;
      cbn [mbind result_bind] in H;
      [|apply float_truediv_exn in Hq; diviseur_non_nul Hq]
  | mbind _ (float_truediv ?a ?b) = Raise _ =>
      let q := fresh "q" in
      let Hq := fresh "Hq" in
      destruct (float_truediv a b) as [q|] eqn:Hq;
      cbn [mbind result_bind] in H;
      [|apply float_truediv_exn in Hq; diviseur_non_nul Hq]
  | mbind _ (if ?c then _ else _) = Raise _ =>
      let Hc := fresh "Hc" in
      destruct c eqn:Hc; cbn [mbind result_bind] in H
  | (if ?c then _ else _) = Raise _ =>
      let Hc := fresh "Hc" in
      destruct c eqn:Hc; [discriminate H|]
  end.

(** X12: [convert_data] never divides by zero.  Provided the builtins
    [float] and [int] do not themselves raise [ZeroDivisionError], no sheet
    makes the body raise it: every divisor has passed a check that excludes
    zero, and the rate of women managers is not computed when there is no
    manager. *)
Theorem convert_data_sans_division_par_zero (py : builtins)
    (annee_courante : Z) (df : dataframe) :
  (forall s, float_of_str py s <> Raise ZeroDivisionError) ->
  (forall s, int_of_str py s <> Raise ZeroDivisionError) ->
  (forall f, int_of_float py f <> Raise ZeroDivisionError) ->
  convert_data_corps py annee_courante df <> Raise ZeroDivisionError.
Proof.
  intros Hfs His Hif.
  assert (Hpy : (forall c, py_float py c = Raise ZeroDivisionError -> False)
                /\ (forall c, py_int py c = Raise ZeroDivisionError -> False)).
  { split; intros [s|n|f]; cbn [py_float py_int]; try discriminate;
      first [apply Hfs | apply His | apply Hif
            |destruct (float_eq _ _); discriminate]. }
  unfold convert_data_corps. intros H. cbv zeta in H.
  destruct (negb _); [discriminate H|].
  repeat avancer_zde H Hpy; discriminate H.
Qed.

Lemma convert_data_sans_division_par_zero_witness :
  convert_data_corps builtins_sans_texte 2026 bilan_exemple
  <> Raise ZeroDivisionError.
Proof.
  apply (convert_data_sans_division_par_zero builtins_sans_texte 2026
           bilan_exemple); intros ?; simpl; discriminate.
Defined.

(** X13: the checks of [convert_data] let through what no comparison
    catches.  A sheet whose twelve figures are all empty cells (NaN) is
    accepted whenever its name is not empty and its year is in range, and
    every rate it outputs is NaN except the rate of women managers, which is
    the integer 0.  The three age brackets are only checked through their
    sum, so a negative bracket is accepted and gives a negative
    percentage. *)
Theorem convert_data_laisse_passer :
  (forall (py : builtins) (annee_courante annee : Z) (c0 c1 : cellule),
     py_str py c0 <> "" -> py_int py c1 = Ok annee ->
     (2000 <= annee <= annee_courante)%Z ->
     convert_data py annee_courante (bilan_vide c0 c1) =
     Some [("nom_entreprise", CStr (py_str py c0));
           ("annee", CInt annee);
           ("taux_feminisation", CFloat nan);
           ("taux_femmes_cadres", CInt 0);
           ("taux_handicap", CFloat nan);
           ("ecart_salaire", CFloat nan);
           ("moins_30_ans", CFloat nan);
           ("entre_30_50_ans", CFloat nan);
           ("plus_50_ans", CFloat nan);
           ("taux_absenteisme", CFloat nan)]) /\
  (exists sortie,
     convert_data builtins_sans_texte 2026 bilan_age_negatif = Some sortie /\
     ("moins_30_ans", CFloat (-25)) ∈ sortie).
Proof.
  split.
  - intros py y annee c0 c1 Hnom Han Hy.
    unfold convert_data, convert_data_corps, bilan_vide.
    cbn [df_columns df_valeur iloc_valeur list_getitem replicate lookup
         list_lookup mbind result_bind].
    replace (negb _) with false by (vm_compute; reflexivity).
    apply String.eqb_neq in Hnom. rewrite Hnom, Han.
    cbn [mbind result_bind].
    replace ((annee <? 2000)%Z || (annee >? y)%Z) with false
      by (symmetry; apply orb_false_intro; lia).
    reflexivity.
  - eexists. split; [vm_compute; reflexivity|].
    rewrite !elem_of_cons. do 6 right. left. reflexivity.
Qed.

(** ** The import block and what the evaluation makes of its result *)

(** With the six required keys present both blocks produce the same
    evaluation. *)
Lemma blocs_complets (indicateurs : gmap string float) :
  Forall (fun k => is_Some (indicateurs !! k)) indicateurs_requis ->
  exists (g1 g2 g3 g4 g5 g6 : Grade) (s : float),
    calcul_resultats indicateurs = Ok (lettre <$> carte g1 g2 g3 g4 g5 g6) /\
    score_global (lettre <$> carte g1 g2 g3 g4 g5 g6) = Ok s /\
    rapport indicateurs =
      Some (Ok (Evaluation (lettre <$> carte g1 g2 g3 g4 g5 g6) s
                           (chiffre_vers_note s))) /\
    evaluer indicateurs =
      Some (Ok (Evaluation (lettre <$> carte g1 g2 g3 g4 g5 g6) s
                           (chiffre_vers_note s))).
Proof.
  intros Hall.
  assert (Hne : dict_bool indicateurs = true).
  { apply dict_bool_true. intros ->.
    apply Forall_cons in Hall as [[v Hv] _]. now rewrite lookup_empty in Hv. }
  assert (Hver : verifier_indicateurs indicateurs_requis indicateurs = Ok tt).
  { apply verifier_indicateurs_complet. intros k Hk.
    rewrite Forall_forall in Hall. now apply Hall. }
  unfold indicateurs_requis in Hall.
  repeat match goal with
         | H : Forall _ (_ :: _) |- _ => apply Forall_cons in H as [[? ?] H]
         end.
  edestruct calcul_resultats_complet
    as (g1 & g2 & g3 & g4 & g5 & g6 & Hc & _); try eassumption.
  destruct (score_global_palier g1 g2 g3 g4 g5 g6) as (s & Hs & _ & _).
  exists g1, g2, g3, g4, g5, g6, s.
  split; [exact Hc|]. split; [exact Hs|].
  unfold rapport, evaluer, rapport_corps, evaluer_corps.
  rewrite Hne, Hver, Hc. cbn [mbind result_bind]. rewrite Hs.
  split; reflexivity.
Qed.

(** Looks up a literal key in a dict built by inserting literal keys. *)
Ltac cle_litterale :=
  repeat first [rewrite lookup_insert_eq | rewrite lookup_insert_ne by done];
  rewrite ?lookup_empty; eauto.

(** One statement of the import. *)
Ltac pas_import H :=
  match type of H with
  | ou_arret _ ?r _ = _ =>
      let x := fresh "v" in
      let Hx := fresh "Hv" in
      destruct r as [x|] eqn:Hx; cbn [ou_arret] in H
  end.

(** X14: an import that runs to its end leaves in [indicateurs] exactly
    the six required keys, whatever the file held; both evaluation blocks
    then succeed on it and agree. *)
Theorem importer_complet (py : builtins) (data_dict : gmap string cellule)
    (indicateurs : gmap string float) (lu : cellule * Z) :
  importer py data_dict ∅ = (indicateurs, Ok lu) ->
  (forall k, is_Some (indicateurs !! k) <-> k ∈ indicateurs_requis) /\
  exists ev : evaluation,
    rapport indicateurs = Some (Ok ev) /\
    evaluer indicateurs = Some (Ok ev).
Proof.
  unfold importer. intros H. cbv zeta in H.
  repeat pas_import H; try discriminate H.
  injection H as <- _.
  split.
  - intros k. unfold indicateurs_requis.
    rewrite !lookup_insert_is_Some', lookup_empty, !elem_of_cons,
      elem_of_nil, <- not_eq_None_Some.
    intuition congruence.
  - edestruct blocs_complets as (g1 & g2 & g3 & g4 & g5 & g6 & s & _ & _
                                 & Hr & He).
    2: { eexists. split; [exact Hr|exact He]. }
    unfold indicateurs_requis. repeat constructor; cle_litterale.
Qed.

Lemma importer_complet_witness :
  exists (indicateurs : gmap string float) (ev : evaluation),
    fst (importer builtins_sans_texte ∅ ∅) = indicateurs /\
    rapport indicateurs = Some (Ok ev) /\
    evaluer indicateurs = Some (Ok ev).
Proof.
  assert (H : importer builtins_sans_texte ∅ ∅ =
              (fst (importer builtins_sans_texte ∅ ∅),
               Ok (CStr "Entreprise inconnue", 2022%Z)))
    by (vm_compute; reflexivity).
  destruct (importer_complet _ _ _ _ H) as (_ & ev & Hrap & Hev).
  eexists _, ev. split; [reflexivity|]. split; assumption.
Defined.

(** Both blocks on a dict whose first missing required key is known. *)
Ltac premiere_cle_absente avant ind apres :=
  unfold rapport, evaluer, rapport_corps, evaluer_corps;
  rewrite dict_bool_insert;
  rewrite (calcul_resultats_premier avant apres ind)
    by first [reflexivity | repeat constructor; cle_litterale | cle_litterale];
  change indicateurs_requis with (avant ++ ind :: apres);
  rewrite (verifier_indicateurs_premier avant apres ind)
    by first [repeat constructor; cle_litterale | cle_litterale];
  eauto.

(** The two blocks after an import that stopped with [avant] stored. *)
Ltac arret_sur avant ind apres :=
  right; exists avant, apres, ind;
  split; [reflexivity|];
  split; [repeat constructor; cle_litterale|];
  split; [cle_litterale|];
  premiere_cle_absente avant ind apres.

(** X15: an import that is stopped by an exception never leads to a
    partial evaluation.  Either nothing was stored and both blocks are
    skipped, or the dict lacks a required key and the button block raises
    [KeyError] while the report block raises [ValueError], both for the
    first required key that is missing: every required key listed before
    it was stored. *)
Theorem importer_interrompu (py : builtins) (data_dict : gmap string cellule)
    (indicateurs : gmap string float) (e : exn) :
  importer py data_dict ∅ = (indicateurs, Raise e) ->
  (indicateurs = ∅ /\ rapport indicateurs = None /\
   evaluer indicateurs = None) \/
  exists (avant apres : list string) (ind : string),
    indicateurs_requis = avant ++ ind :: apres /\
    Forall (fun k => is_Some (indicateurs !! k)) avant /\
    indicateurs !! ind = None /\
    evaluer indicateurs = Some (Raise (KeyError ind)) /\
    rapport indicateurs =
    Some (Raise (ValueError ("L'indicateur " +:+ ind +:+ " est manquant"))).
Proof.
  unfold importer. intros H. cbv zeta in H.
  repeat pas_import H; try discriminate H; injection H as <- _.
  - arret_sur
      ["taux_feminisation"; "taux_femmes_cadres"; "taux_handicap";
       "ecart_salaire"; "equilibre_age"] "taux_absenteisme" (@nil string).
  - arret_sur
      ["taux_feminisation"; "taux_femmes_cadres"; "taux_handicap";
       "ecart_salaire"] "equilibre_age" ["taux_absenteisme"].
  - arret_sur
      ["taux_feminisation"; "taux_femmes_cadres"; "taux_handicap";
       "ecart_salaire"] "equilibre_age" ["taux_absenteisme"].
  - arret_sur
      ["taux_feminisation"; "taux_femmes_cadres"; "taux_handicap";
       "ecart_salaire"] "equilibre_age" ["taux_absenteisme"].
  - arret_sur
      ["taux_feminisation"; "taux_femmes_cadres"] "taux_handicap"
      ["ecart_salaire"; "equilibre_age"; "taux_absenteisme"].
  - arret_sur
      ["taux_feminisation"; "taux_femmes_cadres"] "taux_handicap"
      ["ecart_salaire"; "equilibre_age"; "taux_absenteisme"].
  - arret_sur
      ["taux_feminisation"] "taux_femmes_cadres"
      ["taux_handicap"; "ecart_salaire"; "equilibre_age";
       "taux_absenteisme"].
  - left. split; [reflexivity|]. split; vm_compute; reflexivity.
  - left. split; [reflexivity|]. split; vm_compute; reflexivity.
Qed.

Lemma importer_interrompu_witness :
  exists (avant apres : list string) (ind : string),
    indicateurs_requis = avant ++ ind :: apres /\
    rapport (fst (importer builtins_sans_texte data_dict_texte ∅)) =
    Some (Raise (ValueError ("L'indicateur " +:+ ind +:+ " est manquant"))).
Proof.
  destruct (importer_interrompu builtins_sans_texte data_dict_texte
              (fst (importer builtins_sans_texte data_dict_texte ∅))
              (ValueError "could not convert string to float"))
    as [(Hvide & _)|(avant & apres & ind & Heq & _ & _ & _ & Hrap)].
  - vm_compute. reflexivity.
  - apply (f_equal (fun m => m !! "taux_feminisation")) in Hvide.
    vm_compute in Hvide. discriminate Hvide.
  - exists avant, apres, ind. split; assumption.
Defined.

(** X16: the import reads ten rows by name and nothing else: a row under
    any other name changes neither the dict it fills nor its outcome. *)
Theorem importer_ligne_inconnue (py : builtins)
    (data_dict : gmap string cellule) (indicateurs : gmap string float)
    (k : string) (c : cellule) :
  k ∉ template_indicateurs ->
  importer py (<[k := c]> data_dict) indicateurs =
  importer py data_dict indicateurs.
Proof.
  intros Hk. unfold importer, lire_nombre, dict_get.
  rewrite !(lookup_insert_ne data_dict k)
    by (intros ->; apply Hk; unfold template_indicateurs; set_solver).
  reflexivity.
Qed.

Lemma importer_ligne_inconnue_witness :
  importer builtins_sans_texte
    (<["taux_turnover" := CFloat 12]> data_dict_texte) ∅ =
  importer builtins_sans_texte data_dict_texte ∅.
Proof.
  apply (importer_ligne_inconnue builtins_sans_texte data_dict_texte ∅
           "taux_turnover" (CFloat 12)).
  unfold template_indicateurs. rewrite !not_elem_of_cons.
  repeat split; try discriminate. apply not_elem_of_nil.
Defined.

(** X17: a row that is missing is not an error: the import puts 0 in its
    place.  A file with none of the ten rows is imported under the name
    "Entreprise inconnue" and the year 2022 with every rate at 0; graded, it
    gets E on the three higher-is-better rates and on the age balance, A on
    the pay gap and on absenteeism, and the global grade D. *)
Theorem importer_sans_lignes (py : builtins)
    (data_dict : gmap string cellule) :
  (forall k, k ∈ template_indicateurs -> data_dict !! k = None) ->
  importer py data_dict ∅ =
    (indicateurs_par_defaut, Ok (CStr "Entreprise inconnue", 2022%Z)) /\
  exists s : float,
    rapport indicateurs_par_defaut =
    Some (Ok (Evaluation (lettre <$> carte E E E A E A) s "D")).
Proof.
  intros Habs. split.
  - unfold importer, lire_nombre, dict_get.
    rewrite !Habs by (unfold template_indicateurs; set_solver).
    vm_compute. reflexivity.
  - eexists. vm_compute. reflexivity.
Qed.

Lemma importer_sans_lignes_witness :
  importer builtins_sans_texte (<["taux_turnover" := CFloat 12]> ∅) ∅ =
    (indicateurs_par_defaut, Ok (CStr "Entreprise inconnue", 2022%Z)).
Proof.
  apply (importer_sans_lignes builtins_sans_texte
           (<["taux_turnover" := CFloat 12]> ∅)).
  intros k Hk. apply lookup_insert_None. split; [apply lookup_empty|].
  intros <-. revert Hk. unfold template_indicateurs.
  rewrite !elem_of_cons, elem_of_nil. intuition discriminate.
Defined.

(** ** From the converter to the evaluator *)

(** X18: the rows [convert_data] returns are, up to their order, the ten
    rows of the evaluator's CSV template.  Handed to the import block cell
    for cell (the CSV file in between left aside), they are imported
    without error: the name and the year are those of the sheet, each rate
    stored is the float of the converter's cell, and the age balance is
    computed from the converter's three age percentages. *)
Theorem convert_data_importer (py : builtins) (annee_courante : Z)
    (df : dataframe) (sortie : list (string * cellule)) :
  convert_data py annee_courante df = Some sortie ->
  sortie.*1 ≡ₚ template_indicateurs /\
  exists (indicateurs : gmap string float) (nom : cellule) (annee : Z),
    importer py (dict_zip sortie) ∅ = (indicateurs, Ok (nom, annee)) /\
    dict_zip sortie !! "nom_entreprise" = Some nom /\
    dict_zip sortie !! "annee" = Some (CInt annee) /\
    Forall (fun k => exists c v,
              dict_zip sortie !! k = Some c /\ py_float py c = Ok v /\
              indicateurs !! k = Some v)
      ["taux_feminisation"; "taux_femmes_cadres"; "ecart_salaire";
       "taux_handicap"; "taux_absenteisme"] /\
    exists a b c : float,
      Forall2 (fun k x => dict_zip sortie !! k = Some (CFloat x))
        ["moins_30_ans"; "entre_30_50_ans"; "plus_50_ans"] [a; b; c] /\
      indicateurs !! "equilibre_age" = Some (calculer_equilibre_age a b c).
Proof.
  unfold convert_data. intros Hconv.
  destruct (convert_data_corps py annee_courante df) as [s|] eqn:Hc;
    [|discriminate Hconv].
  injection Hconv as ->.
  apply convert_data_corps_Ok in Hc
    as (c0 & c1 & c2 & c3 & c4 & c5 & c6 & c7 & c8 & c9 & c10 & c11 & c12
        & c13 & annee & e & nf & nc & nfc & nh & jt & ja & a1 & a2 & a3
        & sh & sf & _ & _ & _ & _ & _ & _ & H).
  do 14 (destruct H as [_ H]). subst sortie.
  split.
  { cbn [fmap list_fmap fst]. unfold template_indicateurs.
    do 4 apply Permutation_skip. apply Permutation_swap. }
  destruct (float_gt nc 0);
    (match goal with
     | |- context [importer ?p ?d ?i] =>
         let r := eval vm_compute in (importer p d i) in
         change (importer p d i) with r
     end;
     do 3 eexists; split; [reflexivity|];
     split; [vm_compute; reflexivity|];
     split; [vm_compute; reflexivity|];
     split;
     [repeat constructor; do 2 eexists;
      (split; [vm_compute; reflexivity|]);
      (split; [reflexivity|vm_compute; reflexivity])
     |do 3 eexists; split;
      [repeat constructor; vm_compute; reflexivity
      |vm_compute; reflexivity]]).
Qed.

Lemma convert_data_importer_witness :
  exists sortie : list (string * cellule),
    convert_data builtins_sans_texte 2026 bilan_exemple = Some sortie /\
    sortie.*1 ≡ₚ template_indicateurs.
Proof.
  assert (H : exists sortie,
             convert_data builtins_sans_texte 2026 bilan_exemple
             = Some sortie) by (eexists; vm_compute; reflexivity).
  destruct H as [sortie H]. exists sortie. split; [exact H|].
  exact (proj1 (convert_data_importer builtins_sans_texte 2026 bilan_exemple
                  sortie H)).
Defined.

(** ** The data of the PDF report *)

Lemma resultats_items_carte (g1 g2 g3 g4 g5 g6 : Grade) :
  resultats_items (lettre <$> carte g1 g2 g3 g4 g5 g6) =
  [("Taux de féminisation global", lettre g1);
   ("Taux de femmes cadres", lettre g2);
   ("Taux d'emploi handicap", lettre g3);
   ("Écart de salaire H/F", lettre g4);
   ("Équilibre des âges", lettre g5);
   ("Taux d'absentéisme", lettre g6)].
Proof.
  unfold resultats_items, ordre_resultats, carte.
  rewrite !fmap_insert, fmap_empty. cbn [omap list_omap].
  repeat first [rewrite lookup_insert_eq | rewrite lookup_insert_ne by done].
  reflexivity.
Qed.

(** X19: for the grades of a complete dict, [prepare_data_for_pdf] raises
    nothing and keeps the six indicators in their order; the value and the
    threshold list it attaches to an indicator are the ones that indicator
    was graded with: grading the attached value on the attached list, in
    the direction of the indicator, gives back the attached grade. *)
Theorem prepare_data_for_pdf_coherent (indicateurs : gmap string float)
    (resultats : gmap string string) (points_forts axes : list string)
    (note_globale : string) (score : float) :
  calcul_resultats indicateurs = Ok resultats ->
  exists data : donnees_pdf,
    prepare_data_for_pdf_corps (resultats_items resultats) points_forts axes
      note_globale score indicateurs = Ok data /\
    (dp_resultats data).*1 = ordre_resultats /\
    dp_points_forts data = points_forts /\
    dp_axes_amelioration data = axes /\
    Forall (fun '(k, d) =>
              resultats !! k = Some (di_note d) /\
              attribuer_note (di_valeur d) (di_seuils d)
                (ordre_croissant_de k) = Ok (di_note d))
      (dp_resultats data).
Proof.
  intros Hr.
  destruct (calcul_resultats_carte _ _ Hr) as [Hall _].
  unfold indicateurs_requis in Hall.
  repeat match goal with
         | H : Forall _ (_ :: _) |- _ => apply Forall_cons in H as [[? ?] H]
         end.
  edestruct calcul_resultats_complet
    as (g1 & g2 & g3 & g4 & g5 & g6 & Hc & Hn1 & Hn2 & Hn3 & Hn4 & Hn5 & Hn6);
    try eassumption.
  assert (resultats = lettre <$> carte g1 g2 g3 g4 g5 g6) as -> by congruence.
  rewrite resultats_items_carte.
  unfold prepare_data_for_pdf_corps. cbn [pour_chaque].
  change (dict_getitem mapping_indicateurs "Taux de féminisation global")
    with (@Ok string "taux_feminisation").
  change (dict_getitem mapping_indicateurs "Taux de femmes cadres")
    with (@Ok string "taux_femmes_cadres").
  change (dict_getitem mapping_indicateurs "Taux d'emploi handicap")
    with (@Ok string "taux_handicap").
  change (dict_getitem mapping_indicateurs "Écart de salaire H/F")
    with (@Ok string "ecart_salaire").
  change (dict_getitem mapping_indicateurs "Équilibre des âges")
    with (@Ok string "equilibre_age").
  change (dict_getitem mapping_indicateurs "Taux d'absentéisme")
    with (@Ok string "taux_absenteisme").
  cbn [mbind result_bind]. unfold dict_get at 1 3 5 7 9 11.
  repeat match goal with
         | H : indicateurs !! ?k = Some _ |- _ => rewrite H; clear H
         end.
  cbn [default].
  change (dict_get seuils "taux_feminisation" [0; 0; 0; 0]%float)
    with [40; 35; 30; 25]%float.
  change (dict_get seuils "taux_femmes_cadres" [0; 0; 0; 0]%float)
    with [35; 30; 25; 20]%float.
  change (dict_get seuils "taux_handicap" [0; 0; 0; 0]%float)
    with [6; 5; 4; 3]%float.
  change (dict_get seuils "ecart_salaire" [0; 0; 0; 0]%float)
    with [2; 4; 8; 12]%float.
  change (dict_get seuils "equilibre_age" [0; 0; 0; 0]%float)
    with [85; 75; 65; 55]%float.
  change (dict_get seuils "taux_absenteisme" [0; 0; 0; 0]%float)
    with [2.5; 3.5; 4.5; 5.5]%float.
  eexists. split; [reflexivity|].
  cbn [dp_resultats dp_points_forts dp_axes_amelioration fmap list_fmap fst].
  split; [reflexivity|].
  split; [now destruct points_forts|].
  split; [now destruct axes|].
  unfold carte. rewrite !fmap_insert, fmap_empty.
  repeat constructor; cbn [di_note di_valeur di_seuils];
    first [cle_litterale | assumption].
Qed.

Lemma prepare_data_for_pdf_coherent_witness :
  exists data : donnees_pdf,
    prepare_data_for_pdf_corps
      (resultats_items (lettre <$> carte C C B C B C)) [] [] "C"
      3.3333333333333335 indicateurs_defaut = Ok data /\
    (dp_resultats data).*1 = ordre_resultats.
Proof.
  destruct (prepare_data_for_pdf_coherent indicateurs_defaut
              (lettre <$> carte C C B C B C) [] [] "C" 3.3333333333333335)
    as (data & Hd & Ho & _).
  - vm_compute. reflexivity.
  - exists data. split; assumption.
Defined.

(** ** The texts of the PDF report *)

(** X20: a value equal to zero is reported as missing.  Whatever the
    indicator and its grade, [get_analyse_indicateur] answers "Données non
    disponibles pour cet indicateur." for a value [== 0]; yet on the two
    lower-is-better ladders of the table such a value earns the grade A. *)
Theorem get_analyse_indicateur_zero (py : builtins) (indicateur note : string)
    (valeur : float) :
  float_eq valeur 0 = true ->
  get_analyse_indicateur py indicateur valeur note =
    "Données non disponibles pour cet indicateur." /\
  attribuer_note valeur [2; 4; 8; 12]%float false = Ok "A" /\
  attribuer_note valeur [2.5; 3.5; 4.5; 5.5]%float false = Ok "A".
Proof.
  intros H0. split.
  - unfold get_analyse_indicateur. now rewrite H0.
  - pose proof (FloatOrder.eq_le _ _ H0) as Hle.
    assert (H2 : float_le valeur 2 = true)
      by (apply (FloatOrder.le_trans _ 0); [exact Hle|reflexivity]).
    assert (H25 : float_le valeur 2.5 = true)
      by (apply (FloatOrder.le_trans _ 0); [exact Hle|reflexivity]).
    rewrite !attribuer_note_decroissant, H2, H25. split; reflexivity.
Qed.

Lemma get_analyse_indicateur_zero_witness :
  get_analyse_indicateur builtins_sans_texte "Écart de salaire H/F" 0 "A" =
    "Données non disponibles pour cet indicateur." /\
  attribuer_note 0 [2; 4; 8; 12]%float false = Ok "A".
Proof.
  destruct (get_analyse_indicateur_zero builtins_sans_texte
              "Écart de salaire H/F" "A" 0) as (H1 & H2 & _).
  - reflexivity.
  - split; assumption.
Defined.

Lemma elem_of_ordre_resultats (k : string) :
  k ∈ ordre_resultats ->
  k = "Taux de féminisation global" \/ k = "Taux de femmes cadres" \/
  k = "Taux d'emploi handicap" \/ k = "Écart de salaire H/F" \/
  k = "Équilibre des âges" \/ k = "Taux d'absentéisme".
Proof.
  unfold ordre_resultats. rewrite !elem_of_cons, elem_of_nil. tauto.
Qed.

(** X21: the fallback texts are never shown for the six indicators and the
    five grades.  The analysis of a non-zero value is a sentence of the
    table, which begins with [Avec]; the recommendations of a
    grade D or E and the conclusion of any grade are texts of their tables;
    for the grades A, B and C there is no recommendation text, only the
    fallback. *)
Theorem textes_sans_repli (py : builtins) (k : string) (g : Grade)
    (valeur : float) :
  k ∈ ordre_resultats ->
  float_eq valeur 0 = false ->
  (exists reste : string,
     get_analyse_indicateur py k valeur (lettre g) = "Avec " +:+ reste) /\
  get_analyse_indicateur py k valeur (lettre g) <> "Analyse non disponible."
  /\
  (get_recommandations k valeur (lettre g) =
     "Aucune recommandation spécifique disponible." <-> est_faible g = false)
  /\
  get_conclusion_phrase (lettre g) <>
    "présente des résultats à analyser en matière de diversité et d'inclusion.".
Proof.
  intros Hk H0. unfold get_analyse_indicateur. rewrite H0.
  apply elem_of_ordre_resultats in Hk as [->|[->|[->|[->|[->| ->]]]]];
    destruct g;
    (split; [eexists; vm_compute; reflexivity|]);
    (split; [vm_compute; discriminate|]);
    (split; [vm_compute; split; first [discriminate | reflexivity]|]);
    vm_compute; discriminate.
Qed.

Lemma textes_sans_repli_witness :
  get_analyse_indicateur builtins_sans_texte "Taux d'absentéisme" 6 "E"
  <> "Analyse non disponible.".
Proof.
  destruct (textes_sans_repli builtins_sans_texte "Taux d'absentéisme" E 6)
    as (_ & H & _).
  - unfold ordre_resultats. set_solver.
  - reflexivity.
  - exact H.
Defined.

Lemma recommandations_pdf_cons (x : string * donnees_indicateur)
    (suite : list (string * donnees_indicateur)) :
  recommandations_pdf (x :: suite) =
  recommandations_pdf [x] ++ recommandations_pdf suite.
Proof.
  unfold recommandations_pdf. cbn [flat_map]. now rewrite app_nil_r.
Qed.

Lemma recommandations_pdf_indicateur (k : string) (g : Grade) (v : float)
    (s : list float) :
  k ∈ ordre_resultats ->
  length (recommandations_pdf [(k, DonneesIndicateur (lettre g) v s)]) =
    (if est_faible g then 4 else 0) /\
  Forall (fun reco =>
            reco <> "Aucune recommandation spécifique disponible." /\
            non_blanc reco = true)
    (recommandations_pdf [(k, DonneesIndicateur (lettre g) v s)]).
Proof.
  intros Hk.
  apply elem_of_ordre_resultats in Hk as [->|[->|[->|[->|[->| ->]]]]];
    destruct g;
    (split; [vm_compute; reflexivity|]);
    (match goal with
     | |- Forall _ ?l => let r := eval vm_compute in l in change l with r
     end);
    repeat constructor; first [discriminate | vm_compute; reflexivity].
Qed.

Lemma nombre_faibles_cons (g : Grade) (gs : list Grade) :
  nombre_faibles (g :: gs) =
  (if est_faible g then 1 else 0) + nombre_faibles gs.
Proof. unfold nombre_faibles. cbn [List.filter]. now destruct (est_faible g). Qed.

(** X22: the PDF lists four recommendations for each of the six
    indicators graded D or E and none for the others, so four times the
    number of weak grades in all; none of them is blank and the fallback
    sentence of [get_recommandations] is never among them. *)
Theorem recommandations_pdf_nombre (ds : list donnees_indicateur)
    (gs : list Grade) :
  Forall2 (fun d g => di_note d = lettre g) ds gs ->
  length gs = 6 ->
  length (recommandations_pdf (zip ordre_resultats ds)) =
    4 * nombre_faibles gs /\
  Forall (fun reco =>
            reco <> "Aucune recommandation spécifique disponible." /\
            non_blanc reco = true)
    (recommandations_pdf (zip ordre_resultats ds)).
Proof.
  intros Hds Hlen.
  destruct gs as [|g1 [|g2 [|g3 [|g4 [|g5 [|g6 [|g7 gs]]]]]]];
    try discriminate Hlen.
  repeat match goal with
         | H : Forall2 _ _ (_ :: _) |- _ =>
             let H1 := fresh "Hnote" in
             apply Forall2_cons_inv_r in H as ([? ? ?] & ? & H1 & H & ->);
             cbn [di_note] in H1; rewrite H1; clear H1
         | H : Forall2 _ _ [] |- _ => apply Forall2_nil_inv_r in H as ->
         end.
  unfold ordre_resultats. cbn [zip zip_with].
  rewrite !(recommandations_pdf_cons _ (_ :: _)).
  rewrite !length_app, !Forall_app, !nombre_faibles_cons.
  repeat match goal with
         | |- context [recommandations_pdf
                         [(?k, DonneesIndicateur (lettre ?g) ?v ?s)]] =>
             let Hl := fresh "Hl" in
             let Hf := fresh "Hf" in
             destruct (recommandations_pdf_indicateur k g v s) as [Hl Hf];
             [unfold ordre_resultats; set_solver|];
             revert Hf; rewrite Hl; intros Hf; clear Hl;
             generalize dependent
               (recommandations_pdf [(k, DonneesIndicateur (lettre g) v s)])
         end.
  intros. unfold nombre_faibles. cbn [List.filter length].
  split; [|tauto].
  destruct (est_faible g1), (est_faible g2), (est_faible g3),
    (est_faible g4), (est_faible g5), (est_faible g6); lia.
Qed.

Lemma recommandations_pdf_nombre_witness :
  length (recommandations_pdf
            (zip ordre_resultats
               [DonneesIndicateur "A" 41 [40; 35; 30; 25]%float;
                DonneesIndicateur "B" 31 [35; 30; 25; 20]%float;
                DonneesIndicateur "C" 4 [6; 5; 4; 3]%float;
                DonneesIndicateur "D" 9 [2; 4; 8; 12]%float;
                DonneesIndicateur "E" 50 [85; 75; 65; 55]%float;
                DonneesIndicateur "C" 4 [2.5; 3.5; 4.5; 5.5]%float])) = 8.
Proof.
  refine (proj1 (recommandations_pdf_nombre _ [A; B; C; D; E; C] _ _)).
  - repeat constructor.
  - reflexivity.
Defined.
